(** * SubListener: status-event aggregation and callback dispatch

    A shallow embedding of
    [rmw_fastrtps_shared_cpp/src/custom_subscriber_info.cpp]:
    the two Fast DDS status handlers of [SubListener]
    ([on_requested_deadline_missed], [on_liveliness_changed]), the polling
    interface ([hasEvent], [takeNextEvent]) and the registration of the
    executor callback ([eventSetExecutorCallback]).

    The member functions are written in a small state monad over the
    object's data members and a trace of the externally visible actions
    (lock, unlock, condition-variable signal, callback invocation); a
    failed [assert] aborts the computation. *)

From Stdlib Require Import ZArith List Bool Lia.
Import ListNotations.
Open Scope Z_scope.

(** ** Fixed-width integers

    Counters are mathematical integers; every operation that can leave
    the range of its C++ type is followed by the reduction into that
    type. *)

Definition wrap_uint32 (z : Z) : Z := z mod 2 ^ 32.
Definition wrap_int32 (z : Z) : Z := (z + 2 ^ 31) mod 2 ^ 32 - 2 ^ 31.
Definition wrap_uint64 (z : Z) : Z := z mod 2 ^ 64.

Definition INT32_MIN : Z := - 2 ^ 31.
Definition INT32_MAX : Z := 2 ^ 31 - 1.
Definition UINT64_MAX : Z := 2 ^ 64 - 1.

(** Sum of a list of contributions. *)
Definition Zsum (l : list Z) : Z := fold_right Z.add 0 l.

(** ** Pointers

    [const void *] user data, the function pointer [rmw_event_callback_t]
    and the pointers to the wait set's mutex and condition variable are
    addresses; address 0 is [nullptr]. *)

Definition pointer := N.
Definition nullptr : pointer := 0%N.
Definition is_null (p : pointer) : bool := N.eqb p nullptr.

(** ** Status structures *)

(** The status values Fast DDS hands to the listener
    ([fastdds/dds/core/status/DeadlineMissedStatus.hpp] and
    [LivelinessChangedStatus.hpp]).  The fields of the deadline status are
    [uint32_t], those of the liveliness status [int32_t].  The instance
    and publication handles are never read or written by this file. *)
Module fastdds.
Record RequestedDeadlineMissedStatus : Type := {
  total_count : Z;
  total_count_change : Z
}.

Record LivelinessChangedStatus : Type := {
  alive_count : Z;
  not_alive_count : Z;
  alive_count_change : Z;
  not_alive_count_change : Z
}.
End fastdds.

(** The structures [takeNextEvent] fills in ([rmw/events_statuses]); all
    fields are [int32_t]. *)
Module rmw.
Record rmw_requested_deadline_missed_status_t : Type := {
  total_count : Z;
  total_count_change : Z
}.

Record rmw_liveliness_changed_status_t : Type := {
  alive_count : Z;
  not_alive_count : Z;
  alive_count_change : Z;
  not_alive_count_change : Z
}.
End rmw.

(** [rmw_event_type_t].  The source names two enumerators; [RMW_EVENT_other]
    stands for every other enumerator of the type. *)
Inductive rmw_event_type_t : Type :=
| RMW_EVENT_LIVELINESS_CHANGED
| RMW_EVENT_REQUESTED_DEADLINE_MISSED
| RMW_EVENT_other (tag : N).

(** What [void * event_info] points to.  [takeNextEvent] casts the pointer
    to the structure of the requested kind and assigns every field of it,
    so the pointee after the call does not depend on its contents before. *)
Inductive event_info_t : Type :=
| liveliness_info (d : rmw.rmw_liveliness_changed_status_t)
| deadline_info (d : rmw.rmw_requested_deadline_missed_status_t).

(** ** The object *)

(** The data members of [SubListener] that this file reads or writes.
    [deadline_changes_] and [liveliness_changes_] are [std::atomic_bool];
    [unread_events_count_] is a [uint64_t]. *)
Record SubListener : Type := {
  deadline_changes_ : bool;
  requested_deadline_missed_status_ : fastdds.RequestedDeadlineMissedStatus;
  liveliness_changes_ : bool;
  liveliness_changed_status_ : fastdds.LivelinessChangedStatus;
  conditionMutex_ : pointer;
  conditionVariable_ : pointer;
  listener_callback_ : pointer;
  user_data_ : pointer;
  unread_events_count_ : Z
}.

Definition set_deadline_changes_ (v : bool) (o : SubListener) : SubListener :=
  {| deadline_changes_ := v;
     requested_deadline_missed_status_ := requested_deadline_missed_status_ o;
     liveliness_changes_ := liveliness_changes_ o;
     liveliness_changed_status_ := liveliness_changed_status_ o;
     conditionMutex_ := conditionMutex_ o;
     conditionVariable_ := conditionVariable_ o;
     listener_callback_ := listener_callback_ o;
     user_data_ := user_data_ o;
     unread_events_count_ := unread_events_count_ o |}.

Definition set_requested_deadline_missed_status_
    (v : fastdds.RequestedDeadlineMissedStatus) (o : SubListener) : SubListener :=
  {| deadline_changes_ := deadline_changes_ o;
     requested_deadline_missed_status_ := v;
     liveliness_changes_ := liveliness_changes_ o;
     liveliness_changed_status_ := liveliness_changed_status_ o;
     conditionMutex_ := conditionMutex_ o;
     conditionVariable_ := conditionVariable_ o;
     listener_callback_ := listener_callback_ o;
     user_data_ := user_data_ o;
     unread_events_count_ := unread_events_count_ o |}.

Definition set_liveliness_changes_ (v : bool) (o : SubListener) : SubListener :=
  {| deadline_changes_ := deadline_changes_ o;
     requested_deadline_missed_status_ := requested_deadline_missed_status_ o;
     liveliness_changes_ := v;
     liveliness_changed_status_ := liveliness_changed_status_ o;
     conditionMutex_ := conditionMutex_ o;
     conditionVariable_ := conditionVariable_ o;
     listener_callback_ := listener_callback_ o;
     user_data_ := user_data_ o;
     unread_events_count_ := unread_events_count_ o |}.

Definition set_liveliness_changed_status_
    (v : fastdds.LivelinessChangedStatus) (o : SubListener) : SubListener :=
  {| deadline_changes_ := deadline_changes_ o;
     requested_deadline_missed_status_ := requested_deadline_missed_status_ o;
     liveliness_changes_ := liveliness_changes_ o;
     liveliness_changed_status_ := v;
     conditionMutex_ := conditionMutex_ o;
     conditionVariable_ := conditionVariable_ o;
     listener_callback_ := listener_callback_ o;
     user_data_ := user_data_ o;
     unread_events_count_ := unread_events_count_ o |}.

Definition set_listener_callback_ (v : pointer) (o : SubListener) : SubListener :=
  {| deadline_changes_ := deadline_changes_ o;
     requested_deadline_missed_status_ := requested_deadline_missed_status_ o;
     liveliness_changes_ := liveliness_changes_ o;
     liveliness_changed_status_ := liveliness_changed_status_ o;
     conditionMutex_ := conditionMutex_ o;
     conditionVariable_ := conditionVariable_ o;
     listener_callback_ := v;
     user_data_ := user_data_ o;
     unread_events_count_ := unread_events_count_ o |}.

Definition set_user_data_ (v : pointer) (o : SubListener) : SubListener :=
  {| deadline_changes_ := deadline_changes_ o;
     requested_deadline_missed_status_ := requested_deadline_missed_status_ o;
     liveliness_changes_ := liveliness_changes_ o;
     liveliness_changed_status_ := liveliness_changed_status_ o;
     conditionMutex_ := conditionMutex_ o;
     conditionVariable_ := conditionVariable_ o;
     listener_callback_ := listener_callback_ o;
     user_data_ := v;
     unread_events_count_ := unread_events_count_ o |}.

Definition set_unread_events_count_ (v : Z) (o : SubListener) : SubListener :=
  {| deadline_changes_ := deadline_changes_ o;
     requested_deadline_missed_status_ := requested_deadline_missed_status_ o;
     liveliness_changes_ := liveliness_changes_ o;
     liveliness_changed_status_ := liveliness_changed_status_ o;
     conditionMutex_ := conditionMutex_ o;
     conditionVariable_ := conditionVariable_ o;
     listener_callback_ := listener_callback_ o;
     user_data_ := user_data_ o;
     unread_events_count_ := v |}.

(** Modelled from the spec: the constructor of [SubListener] is declared in
    the class header, which is not part of the source file.  The spec (§3,
    §6) has the endpoint created with empty status records, cleared flags, no
    callback, no buffered count, and the wait-coordination mutex and
    condition variable handed in from outside. *)
Definition SubListener_new (conditionMutex conditionVariable : pointer) : SubListener :=
  {| deadline_changes_ := false;
     requested_deadline_missed_status_ :=
       {| fastdds.total_count := 0; fastdds.total_count_change := 0 |};
     liveliness_changes_ := false;
     liveliness_changed_status_ :=
       {| fastdds.alive_count := 0; fastdds.not_alive_count := 0;
          fastdds.alive_count_change := 0; fastdds.not_alive_count_change := 0 |};
     conditionMutex_ := conditionMutex;
     conditionVariable_ := conditionVariable;
     listener_callback_ := nullptr;
     user_data_ := nullptr;
     unread_events_count_ := 0 |}.

(** ** Observable actions *)

Inductive mutex : Type :=
| internalMutex_
| conditionMutex (address : pointer)
| listener_callback_mutex_.

Inductive event : Type :=
| EvLock (m : mutex)
| EvUnlock (m : mutex)
| EvNotify (condition_variable : pointer)
| EvCallback (callback : pointer) (user_data : pointer) (number_of_events : Z).

(** The object together with the actions performed so far, oldest first. *)
Record World : Type := {
  self : SubListener;
  trace : list event
}.

(** ** The monad of member functions *)

Inductive outcome (A : Type) : Type :=
| Returned (a : A) (w : World)
| Aborted.
Arguments Returned {A} a w.
Arguments Aborted {A}.

Definition M (A : Type) : Type := World -> outcome A.

Definition ret {A} (a : A) : M A := fun w => Returned a w.

Definition bind {A B} (m : M A) (k : A -> M B) : M B :=
  fun w => match m w with
           | Returned a w' => k a w'
           | Aborted => Aborted
           end.

Declare Scope member_scope.
Delimit Scope member_scope with member.
Notation "x <- m ;; k" := (bind m (fun x => k))
  (at level 61, m at next level, right associativity) : member_scope.
Notation "m ;; k" := (bind m (fun _ => k))
  (at level 61, right associativity) : member_scope.
Open Scope member_scope.

Definition this : M SubListener := fun w => Returned (self w) w.

Definition modify (f : SubListener -> SubListener) : M unit :=
  fun w => Returned tt {| self := f (self w); trace := trace w |}.

Definition emit (e : event) : M unit :=
  fun w => Returned tt {| self := self w; trace := trace w ++ [e] |}.

Definition abort {A} : M A := fun _ => Aborted.

(** [std::lock_guard] and [std::unique_lock] declared at the top of a block:
    the mutex is taken at the declaration and released when the block is
    left, after everything declared later has been destroyed. *)
Definition lock_guard {A} (m : mutex) (body : M A) : M A :=
  emit (EvLock m) ;;
  r <- body ;;
  emit (EvUnlock m) ;;
  ret r.

Definition unique_lock {A} (m : mutex) (body : M A) : M A :=
  emit (EvLock m) ;;
  r <- body ;;
  emit (EvUnlock m) ;;
  ret r.

(** Modelled from the spec: the class [ConditionalScopedLock] is declared in
    a header that is not part of the source file.  Spec §5, lock 2: a scoped
    acquisition of the wait-coordination lock with guaranteed release on
    all exit paths, which signals the condition variable so that a blocked
    waiter wakes (§6: the core acquires, signals, releases).  The lock is
    conditional on a mutex being attached: with a null mutex the guard does
    nothing. *)
Definition ConditionalScopedLock {A}
    (mutex_ condition_variable : pointer) (body : M A) : M A :=
  if is_null mutex_ then body
  else
    emit (EvLock (conditionMutex mutex_)) ;;
    r <- body ;;
    (if is_null condition_variable then ret tt
     else emit (EvNotify condition_variable)) ;;
    emit (EvUnlock (conditionMutex mutex_)) ;;
    ret r.

(** ** Calls and what they contribute

    A history of the object is a list of member-function calls. *)

Inductive call : Type :=
| call_on_requested_deadline_missed (status : fastdds.RequestedDeadlineMissedStatus)
| call_on_liveliness_changed (status : fastdds.LivelinessChangedStatus)
| call_hasEvent (event_type : rmw_event_type_t)
| call_eventSetExecutorCallback (user_data callback : pointer)
| call_takeNextEvent (event_type : rmw_event_type_t) (event_info : event_info_t).

(** The kinds that have a case of their own in the [switch] statements. *)
Definition handled (event_type : rmw_event_type_t) : bool :=
  match event_type with
  | RMW_EVENT_LIVELINESS_CHANGED => true
  | RMW_EVENT_REQUESTED_DEADLINE_MISSED => true
  | RMW_EVENT_other _ => false
  end.

Definition is_record (c : call) : bool :=
  match c with
  | call_on_requested_deadline_missed _ => true
  | call_on_liveliness_changed _ => true
  | _ => false
  end.

(** [records k c]: the call [c] is the status handler of kind [k]. *)
Definition records (k : rmw_event_type_t) (c : call) : bool :=
  match k, c with
  | RMW_EVENT_REQUESTED_DEADLINE_MISSED, call_on_requested_deadline_missed _ => true
  | RMW_EVENT_LIVELINESS_CHANGED, call_on_liveliness_changed _ => true
  | _, _ => false
  end.

(** [takes k c]: the call [c] is [takeNextEvent] for kind [k]. *)
Definition takes (k : rmw_event_type_t) (c : call) : bool :=
  match k, c with
  | RMW_EVENT_REQUESTED_DEADLINE_MISSED,
    call_takeNextEvent RMW_EVENT_REQUESTED_DEADLINE_MISSED _ => true
  | RMW_EVENT_LIVELINESS_CHANGED,
    call_takeNextEvent RMW_EVENT_LIVELINESS_CHANGED _ => true
  | _, _ => false
  end.

Definition registers (c : call) : bool :=
  match c with
  | call_eventSetExecutorCallback _ callback => negb (is_null callback)
  | _ => false
  end.

(** The statuses handed to the handlers of a history, oldest first. *)
Fixpoint deadline_statuses (cs : list call) : list fastdds.RequestedDeadlineMissedStatus :=
  match cs with
  | [] => []
  | call_on_requested_deadline_missed status :: cs' => status :: deadline_statuses cs'
  | _ :: cs' => deadline_statuses cs'
  end.

Fixpoint liveliness_statuses (cs : list call) : list fastdds.LivelinessChangedStatus :=
  match cs with
  | [] => []
  | call_on_liveliness_changed status :: cs' => status :: liveliness_statuses cs'
  | _ :: cs' => liveliness_statuses cs'
  end.

(** The invocations of the executor callback in a trace, oldest first. *)
Fixpoint callbacks (tr : list event) : list (pointer * pointer * Z) :=
  match tr with
  | [] => []
  | EvCallback callback user_data n :: tr' => (callback, user_data, n) :: callbacks tr'
  | _ :: tr' => callbacks tr'
  end.

(** ** Locks held along a trace *)

Definition mutex_eqb (a b : mutex) : bool :=
  match a, b with
  | internalMutex_, internalMutex_ => true
  | conditionMutex p, conditionMutex q => N.eqb p q
  | listener_callback_mutex_, listener_callback_mutex_ => true
  | _, _ => false
  end.

Fixpoint release (m : mutex) (held : list mutex) : list mutex :=
  match held with
  | [] => []
  | h :: held' => if mutex_eqb m h then held' else h :: release m held'
  end.

(** The locks held after the actions [tr], most recently taken first. *)
Fixpoint held_after (held : list mutex) (tr : list event) : list mutex :=
  match tr with
  | [] => held
  | EvLock m :: tr' => held_after (m :: held) tr'
  | EvUnlock m :: tr' => held_after (release m held) tr'
  | _ :: tr' => held_after held tr'
  end.


(** For every callback invocation in [tr], the locks held around it. *)
Fixpoint held_at_callback (held : list mutex) (tr : list event) : list (list mutex) :=
  match tr with
  | [] => []
  | EvLock m :: tr' => held_at_callback (m :: held) tr'
  | EvUnlock m :: tr' => held_at_callback (release m held) tr'
  | EvCallback _ _ _ :: tr' => held :: held_at_callback held tr'
  | EvNotify _ :: tr' => held_at_callback held tr'
  end.

Definition is_data_lock (m : mutex) : bool :=
  match m with
  | internalMutex_ => true
  | conditionMutex _ => true
  | listener_callback_mutex_ => false
  end.

(** [dispatcher_outside_data_locks tr]: at no point of [tr] is
    [listener_callback_mutex_] held together with [internalMutex_] or a
    wait-coordination mutex. *)
Fixpoint dispatcher_outside_data_locks (held : list mutex) (tr : list event) : bool :=
  negb (existsb (mutex_eqb listener_callback_mutex_) held && existsb is_data_lock held)
  && match tr with
     | [] => true
     | EvLock m :: tr' => dispatcher_outside_data_locks (m :: held) tr'
     | EvUnlock m :: tr' => dispatcher_outside_data_locks (release m held) tr'
     | _ :: tr' => dispatcher_outside_data_locks held tr'
     end.

(** Modelled from the spec: [is_event_supported] is defined in another
    translation unit of the repository.  The spec (§3, §6) has a
    subscription endpoint support the deadline-missed and the
    liveliness-changed kind; this instance of the predicate accepts exactly
    those two. *)
Definition subscription_event_supported (event_type : rmw_event_type_t) : bool :=
  handled event_type.

(** ** Concrete inputs

    A freshly constructed object, some statuses and some histories, used
    to run the member functions on. *)

Definition fresh_world : World :=
  {| self := SubListener_new nullptr nullptr; trace := [] |}.

(** A freshly constructed object attached to a wait set whose mutex is at
    address 16 and whose condition variable is at address 32. *)
Definition attached_world : World :=
  {| self := SubListener_new 16%N 32%N; trace := [] |}.

Definition one_missed_deadline : fastdds.RequestedDeadlineMissedStatus :=
  {| fastdds.total_count := 1; fastdds.total_count_change := 1 |}.

Definition five_missed_deadlines : fastdds.RequestedDeadlineMissedStatus :=
  {| fastdds.total_count := 5; fastdds.total_count_change := 5 |}.

Definition seven_missed_deadlines : fastdds.RequestedDeadlineMissedStatus :=
  {| fastdds.total_count := 7; fastdds.total_count_change := 2 |}.

Definition three_alive : fastdds.LivelinessChangedStatus :=
  {| fastdds.alive_count := 3; fastdds.not_alive_count := 1;
     fastdds.alive_count_change := 1; fastdds.not_alive_count_change := 0 |}.

Definition five_alive : fastdds.LivelinessChangedStatus :=
  {| fastdds.alive_count := 5; fastdds.not_alive_count := 0;
     fastdds.alive_count_change := 2; fastdds.not_alive_count_change := -1 |}.

(** A deadline status whose counters are [uint32_t] values above the
    [int32_t] range. *)
Definition three_billion_missed_deadlines : fastdds.RequestedDeadlineMissedStatus :=
  {| fastdds.total_count := 3000000000; fastdds.total_count_change := 3000000000 |}.

Definition empty_deadline_info : event_info_t :=
  deadline_info {| rmw.total_count := 0; rmw.total_count_change := 0 |}.

Definition empty_liveliness_info : event_info_t :=
  liveliness_info
    {| rmw.alive_count := 0; rmw.not_alive_count := 0;
       rmw.alive_count_change := 0; rmw.not_alive_count_change := 0 |}.

(** Handler calls of both kinds, a poll and a take of the liveliness kind. *)
Definition mixed_history : list call :=
  [ call_on_requested_deadline_missed five_missed_deadlines;
    call_on_liveliness_changed three_alive;
    call_hasEvent RMW_EVENT_LIVELINESS_CHANGED;
    call_takeNextEvent RMW_EVENT_LIVELINESS_CHANGED empty_liveliness_info;
    call_on_requested_deadline_missed seven_missed_deadlines ].

(** Two liveliness changes in a row. *)
Definition liveliness_history : list call :=
  [ call_on_liveliness_changed three_alive;
    call_on_liveliness_changed five_alive ].

(** Three handler calls and an unregistration, no callback registered. *)
Definition unregistered_history : list call :=
  [ call_on_requested_deadline_missed one_missed_deadline;
    call_eventSetExecutorCallback 7%N nullptr;
    call_on_requested_deadline_missed one_missed_deadline;
    call_on_liveliness_changed three_alive ].

(** The world a computation returns, [d] if it aborted. *)
Definition returned_world {A} (r : outcome A) (d : World) : World :=
  match r with
  | Returned _ w => w
  | Aborted => d
  end.

Section Members.

(** [assert] is compiled out when [NDEBUG] is defined.  The predicate
    [rmw_fastrtps_shared_cpp::internal::is_event_supported] is defined in
    another translation unit. *)
Variable NDEBUG : bool.
Variable is_event_supported : rmw_event_type_t -> bool.

Definition assert (condition : bool) : M unit :=
  if NDEBUG || condition then ret tt else abort.

Definition on_requested_deadline_missed
    (status : fastdds.RequestedDeadlineMissedStatus) : M unit :=
  lock_guard internalMutex_ (
    o <- this ;;
    ConditionalScopedLock (conditionMutex_ o) (conditionVariable_ o) (
      (* Assign absolute values *)
      modify (fun o =>
        set_requested_deadline_missed_status_
          {| fastdds.total_count := fastdds.total_count status;
             fastdds.total_count_change :=
               fastdds.total_count_change (requested_deadline_missed_status_ o) |} o) ;;
      (* Accumulate deltas *)
      modify (fun o =>
        set_requested_deadline_missed_status_
          {| fastdds.total_count :=
               fastdds.total_count (requested_deadline_missed_status_ o);
             fastdds.total_count_change :=
               wrap_uint32
                 (fastdds.total_count_change (requested_deadline_missed_status_ o)
                  + fastdds.total_count_change status) |} o) ;;
      modify (set_deadline_changes_ true) ;;
      (* Callback: add the subscription event to the event queue *)
      unique_lock listener_callback_mutex_ (
        o <- this ;;
        if negb (is_null (listener_callback_ o)) then
          emit (EvCallback (listener_callback_ o) (user_data_ o) 1)
        else
          modify (fun o =>
            set_unread_events_count_ (wrap_uint64 (unread_events_count_ o + 1)) o)))).

Definition on_liveliness_changed
    (status : fastdds.LivelinessChangedStatus) : M unit :=
  lock_guard internalMutex_ (
    o <- this ;;
    ConditionalScopedLock (conditionMutex_ o) (conditionVariable_ o) (
      (* Assign absolute values *)
      modify (fun o =>
        set_liveliness_changed_status_
          {| fastdds.alive_count := fastdds.alive_count status;
             fastdds.not_alive_count := fastdds.not_alive_count status;
             fastdds.alive_count_change :=
               fastdds.alive_count_change (liveliness_changed_status_ o);
             fastdds.not_alive_count_change :=
               fastdds.not_alive_count_change (liveliness_changed_status_ o) |} o) ;;
      (* Accumulate deltas *)
      modify (fun o =>
        set_liveliness_changed_status_
          {| fastdds.alive_count :=
               fastdds.alive_count (liveliness_changed_status_ o);
             fastdds.not_alive_count :=
               fastdds.not_alive_count (liveliness_changed_status_ o);
             fastdds.alive_count_change :=
               wrap_int32
                 (fastdds.alive_count_change (liveliness_changed_status_ o)
                  + fastdds.alive_count_change status);
             fastdds.not_alive_count_change :=
               wrap_int32
                 (fastdds.not_alive_count_change (liveliness_changed_status_ o)
                  + fastdds.not_alive_count_change status) |} o) ;;
      modify (set_liveliness_changes_ true) ;;
      (* Callback: add the subscription event to the event queue *)
      unique_lock listener_callback_mutex_ (
        o <- this ;;
        if negb (is_null (listener_callback_ o)) then
          emit (EvCallback (listener_callback_ o) (user_data_ o) 1)
        else
          modify (fun o =>
            set_unread_events_count_ (wrap_uint64 (unread_events_count_ o + 1)) o)))).

Definition hasEvent (event_type : rmw_event_type_t) : M bool :=
  assert (is_event_supported event_type) ;;
  o <- this ;;
  match event_type with
  | RMW_EVENT_LIVELINESS_CHANGED => ret (liveliness_changes_ o)
  | RMW_EVENT_REQUESTED_DEADLINE_MISSED => ret (deadline_changes_ o)
  | _ => ret false
  end.

Definition eventSetExecutorCallback (user_data callback : pointer) : M unit :=
  unique_lock listener_callback_mutex_ (
    if negb (is_null callback) then
      (* Push events arrived before setting the executor's callback *)
      o <- this ;;
      (if negb (unread_events_count_ o =? 0) then
         emit (EvCallback callback user_data (unread_events_count_ o)) ;;
         modify (set_unread_events_count_ 0)
       else ret tt) ;;
      modify (set_user_data_ user_data) ;;
      modify (set_listener_callback_ callback)
    else
      modify (set_user_data_ nullptr) ;;
      modify (set_listener_callback_ nullptr)).

(** The result is the returned flag together with the pointee of
    [event_info] after the call. *)
Definition takeNextEvent (event_type : rmw_event_type_t) (event_info : event_info_t)
    : M (bool * event_info_t) :=
  assert (is_event_supported event_type) ;;
  lock_guard internalMutex_ (
    match event_type with
    | RMW_EVENT_LIVELINESS_CHANGED =>
        o <- this ;;
        let rmw_data :=
          {| rmw.alive_count :=
               fastdds.alive_count (liveliness_changed_status_ o);
             rmw.not_alive_count :=
               fastdds.not_alive_count (liveliness_changed_status_ o);
             rmw.alive_count_change :=
               fastdds.alive_count_change (liveliness_changed_status_ o);
             rmw.not_alive_count_change :=
               fastdds.not_alive_count_change (liveliness_changed_status_ o) |} in
        modify (fun o =>
          set_liveliness_changed_status_
            {| fastdds.alive_count :=
                 fastdds.alive_count (liveliness_changed_status_ o);
               fastdds.not_alive_count :=
                 fastdds.not_alive_count (liveliness_changed_status_ o);
               fastdds.alive_count_change := 0;
               fastdds.not_alive_count_change := 0 |} o) ;;
        modify (set_liveliness_changes_ false) ;;
        ret (true, liveliness_info rmw_data)
    | RMW_EVENT_REQUESTED_DEADLINE_MISSED =>
        o <- this ;;
        let rmw_data :=
          {| rmw.total_count :=
               wrap_int32 (fastdds.total_count (requested_deadline_missed_status_ o));
             rmw.total_count_change :=
               wrap_int32
                 (fastdds.total_count_change (requested_deadline_missed_status_ o)) |} in
        modify (fun o =>
          set_requested_deadline_missed_status_
            {| fastdds.total_count :=
                 fastdds.total_count (requested_deadline_missed_status_ o);
               fastdds.total_count_change := 0 |} o) ;;
        modify (set_deadline_changes_ false) ;;
        ret (true, deadline_info rmw_data)
    | _ => ret (false, event_info)
    end).

(** ** Histories *)

Definition exec (c : call) : M unit :=
  match c with
  | call_on_requested_deadline_missed status => on_requested_deadline_missed status
  | call_on_liveliness_changed status => on_liveliness_changed status
  | call_hasEvent event_type => hasEvent event_type ;; ret tt
  | call_eventSetExecutorCallback user_data callback =>
      eventSetExecutorCallback user_data callback
  | call_takeNextEvent event_type event_info =>
      takeNextEvent event_type event_info ;; ret tt
  end.

Fixpoint run (cs : list call) : M unit :=
  match cs with
  | [] => ret tt
  | c :: cs' => exec c ;; run cs'
  end.

(** [asserted k]: the entry assertion of [hasEvent] and [takeNextEvent]
    lets kind [k] through. *)
Definition asserted (k : rmw_event_type_t) : bool :=
  NDEBUG || is_event_supported k.

(** The status handlers and the registration never fail; [hasEvent] and
    [takeNextEvent] return exactly when their entry assertion holds. *)
Definition call_asserted (c : call) : bool :=
  match c with
  | call_hasEvent k => asserted k
  | call_takeNextEvent k _ => asserted k
  | _ => true
  end.


(** ** Views used in the statements *)

Definition in_int32 (z : Z) : Prop := INT32_MIN <= z <= INT32_MAX.

(** The delta and the absolute fields of a filled-in [event_info]. *)
Definition delta_fields (i : event_info_t) : list Z :=
  match i with
  | liveliness_info d => [rmw.alive_count_change d; rmw.not_alive_count_change d]
  | deadline_info d => [rmw.total_count_change d]
  end.

Definition absolute_fields (i : event_info_t) : list Z :=
  match i with
  | liveliness_info d => [rmw.alive_count d; rmw.not_alive_count d]
  | deadline_info d => [rmw.total_count d]
  end.

(** The same fields of the status record the object keeps for kind [k]. *)
Definition stored_delta (k : rmw_event_type_t) (o : SubListener) : list Z :=
  match k with
  | RMW_EVENT_LIVELINESS_CHANGED =>
      [fastdds.alive_count_change (liveliness_changed_status_ o);
       fastdds.not_alive_count_change (liveliness_changed_status_ o)]
  | RMW_EVENT_REQUESTED_DEADLINE_MISSED =>
      [fastdds.total_count_change (requested_deadline_missed_status_ o)]
  | RMW_EVENT_other _ => []
  end.

Definition stored_absolute (k : rmw_event_type_t) (o : SubListener) : list Z :=
  match k with
  | RMW_EVENT_LIVELINESS_CHANGED =>
      [fastdds.alive_count (liveliness_changed_status_ o);
       fastdds.not_alive_count (liveliness_changed_status_ o)]
  | RMW_EVENT_REQUESTED_DEADLINE_MISSED =>
      [fastdds.total_count (requested_deadline_missed_status_ o)]
  | RMW_EVENT_other _ => []
  end.

(** The conversion [takeNextEvent] applies when it copies a field of the
    record of kind [k] into the [int32_t] field of the rmw structure: the
    deadline record holds [uint32_t] values, the liveliness record
    [int32_t] values. *)
Definition converted (k : rmw_event_type_t) (z : Z) : Z :=
  match k with
  | RMW_EVENT_REQUESTED_DEADLINE_MISSED => wrap_int32 z
  | _ => z
  end.

(** The unread flag of kind [k]. *)
Definition unread_flag (k : rmw_event_type_t) (o : SubListener) : bool :=
  match k with
  | RMW_EVENT_LIVELINESS_CHANGED => liveliness_changes_ o
  | RMW_EVENT_REQUESTED_DEADLINE_MISSED => deadline_changes_ o
  | RMW_EVENT_other _ => false
  end.

(** For each delta field of kind [k], the sum of the contributions of the
    handler calls for [k] in the history [cs]. *)
Definition recorded_deltas (k : rmw_event_type_t) (cs : list call) : list Z :=
  match k with
  | RMW_EVENT_LIVELINESS_CHANGED =>
      [Zsum (map fastdds.alive_count_change (liveliness_statuses cs));
       Zsum (map fastdds.not_alive_count_change (liveliness_statuses cs))]
  | RMW_EVENT_REQUESTED_DEADLINE_MISSED =>
      [Zsum (map fastdds.total_count_change (deadline_statuses cs))]
  | RMW_EVENT_other _ => []
  end.

(** The absolute fields of the last handler call for [k] in [cs], if any. *)
Definition recorded_absolute (k : rmw_event_type_t) (cs : list call)
    : option (list Z) :=
  match k with
  | RMW_EVENT_LIVELINESS_CHANGED =>
      last (map (fun st => Some [fastdds.alive_count st; fastdds.not_alive_count st])
                (liveliness_statuses cs)) None
  | RMW_EVENT_REQUESTED_DEADLINE_MISSED =>
      last (map (fun st => Some [fastdds.total_count st]) (deadline_statuses cs)) None
  | RMW_EVENT_other _ => None
  end.

(** The states at which an accumulation window for kind [k] opens: the
    object as constructed, and the object as [takeNextEvent k] leaves it. *)
Inductive window_start (k : rmw_event_type_t) : World -> Prop :=
| window_constructed (conditionMutex conditionVariable : pointer) (tr : list event) :
    window_start k {| self := SubListener_new conditionMutex conditionVariable;
                      trace := tr |}
| window_taken (w : World) (event_info : event_info_t)
    (r : bool * event_info_t) (w' : World) :
    takeNextEvent k event_info w = Returned r w' ->
    window_start k w'.

(** The running sums of the contributions [l] added one by one to [acc]. *)
Fixpoint running_sums (acc : Z) (l : list Z) : list Z :=
  match l with
  | [] => []
  | x :: l' => (acc + x) :: running_sums (acc + x) l'
  end.

(** [accumulation_defined k cs]: no accumulation of kind [k] in the history
    [cs] leaves the range in which it is defined.  The liveliness record
    accumulates in signed [int32_t] fields, so every running sum of its two
    delta fields has to be an [int32_t] value.  The deadline record
    accumulates in an unsigned field, which wraps. *)
Definition accumulation_defined (k : rmw_event_type_t) (cs : list call) : Prop :=
  match k with
  | RMW_EVENT_LIVELINESS_CHANGED =>
      Forall in_int32
        (running_sums 0 (map fastdds.alive_count_change (liveliness_statuses cs)))
      /\ Forall in_int32
           (running_sums 0 (map fastdds.not_alive_count_change (liveliness_statuses cs)))
  | _ => True
  end.

(** No callback is registered and nothing is buffered: the dispatcher as
    constructed, and as an unregistration of a registered callback leaves
    it. *)
Definition idle (o : SubListener) : Prop :=
  is_null (listener_callback_ o) = true /\ unread_events_count_ o = 0.

(** The buffered count is zero whenever a callback is registered. *)
Definition dispatcher_invariant (o : SubListener) : Prop :=
  is_null (listener_callback_ o) = false -> unread_events_count_ o = 0.

(** The worlds reachable from a constructed object. *)
Definition reachable (w : World) : Prop :=
  exists conditionMutex conditionVariable cs,
    run cs {| self := SubListener_new conditionMutex conditionVariable; trace := [] |}
    = Returned tt w.

(** ** Further views: lock order, notification totals, kinds of calls *)

(** The order in which the member functions take their locks. *)
Definition lock_rank (m : mutex) : nat :=
  match m with
  | internalMutex_ => 0
  | conditionMutex _ => 1
  | listener_callback_mutex_ => 2
  end.

(** [ordered_locking held tr]: along [tr], started with the locks [held],
    every lock is taken while only locks of lower rank are held, and every
    unlock releases the lock taken last. *)
Fixpoint ordered_locking (held : list mutex) (tr : list event) : bool :=
  match tr with
  | [] => true
  | EvLock m :: tr' =>
      forallb (fun h => Nat.ltb (lock_rank h) (lock_rank m)) held
      && ordered_locking (m :: held) tr'
  | EvUnlock m :: tr' =>
      match held with
      | h :: held' => mutex_eqb m h && ordered_locking held' tr'
      | [] => false
      end
  | _ :: tr' => ordered_locking held tr'
  end.

(** Whether [listener_callback_mutex_] is among the locks [held]. *)
Definition holds_dispatcher_lock (held : list mutex) : bool :=
  existsb (mutex_eqb listener_callback_mutex_) held.

(** The total of the event counts handed to the callback along a trace. *)
Definition notified (tr : list event) : Z :=
  Zsum (map snd (callbacks tr)).

(** The number of handler calls in a history. *)
Definition handler_calls (cs : list call) : Z :=
  Z.of_nat (length (filter is_record cs)).

Definition sets_callback (c : call) : bool :=
  match c with
  | call_eventSetExecutorCallback _ _ => true
  | _ => false
  end.

Definition is_poll (c : call) : bool :=
  match c with
  | call_hasEvent _ => true
  | _ => false
  end.

(** [touches k c]: [c] is the handler or the take of kind [k]. *)
Definition touches (k : rmw_event_type_t) (c : call) : bool :=
  records k c || takes k c.

(** ** Arithmetic of the counters *)

Lemma wrap_uint32_add_l (a b : Z) :
  wrap_uint32 (wrap_uint32 a + b) = wrap_uint32 (a + b).
Proof. unfold wrap_uint32. apply Zplus_mod_idemp_l. Qed.

Lemma wrap_int32_add_l (a b : Z) :
  wrap_int32 (wrap_int32 a + b) = wrap_int32 (a + b).
Proof.
  unfold wrap_int32. f_equal.
  replace ((a + 2 ^ 31) mod 2 ^ 32 - 2 ^ 31 + b + 2 ^ 31)
    with ((a + 2 ^ 31) mod 2 ^ 32 + b) by ring.
  rewrite Zplus_mod_idemp_l. f_equal. ring.
Qed.

Lemma wrap_int32_uint32 (a : Z) : wrap_int32 (wrap_uint32 a) = wrap_int32 a.
Proof.
  unfold wrap_int32, wrap_uint32. f_equal. apply Zplus_mod_idemp_l.
Qed.

Lemma wrap_int32_small (z : Z) :
  INT32_MIN <= z <= INT32_MAX -> wrap_int32 z = z.
Proof.
  unfold wrap_int32, INT32_MIN, INT32_MAX. intros Hz.
  rewrite Z.mod_small; lia.
Qed.

Lemma wrap_int32_idem (z : Z) : wrap_int32 (wrap_int32 z) = wrap_int32 z.
Proof.
  rewrite <- (Z.add_0_r (wrap_int32 z)) at 1.
  rewrite wrap_int32_add_l. f_equal. ring.
Qed.

Lemma wrap_uint64_small (z : Z) : 0 <= z <= UINT64_MAX -> wrap_uint64 z = z.
Proof. unfold wrap_uint64, UINT64_MAX. intros Hz. apply Z.mod_small. lia. Qed.

(** ** Traces *)

Lemma callbacks_app (t1 t2 : list event) :
  callbacks (t1 ++ t2) = callbacks t1 ++ callbacks t2.
Proof.
  induction t1 as [|e t1 IH]; cbn; [reflexivity|].
  destruct e; cbn; rewrite IH; reflexivity.
Qed.

(** ** Running the member functions *)

Ltac unfold_members :=
  unfold exec, on_requested_deadline_missed, on_liveliness_changed, hasEvent,
    eventSetExecutorCallback, takeNextEvent, lock_guard, unique_lock,
    ConditionalScopedLock, assert, asserted, bind, ret, this, modify, emit, abort in *.

Ltac split_on t :=
  lazymatch t with
  | negb ?b => split_on b
  | orb ?a _ => split_on a
  | andb ?a _ => split_on a
  | _ => destruct t eqn:?
  end.

Ltac split_tests :=
  repeat (match goal with
          | H : context [if ?b then _ else _] |- _ => split_on b
          | |- context [if ?b then _ else _] => split_on b
          end; cbn in *; try discriminate).

Ltac returned :=
  repeat match goal with
         | H : Returned _ _ = Returned _ _ |- _ => inversion H; subst; clear H
         | H : Aborted = Returned _ _ |- _ => discriminate H
         | H : Returned _ _ = Aborted |- _ => discriminate H
         end.

Ltac step_call c :=
  destruct c as [? | ? | [| |?] | ? ? | [| |?] ?];
  unfold_members; cbn in *; split_tests; returned; cbn in *.

(** *** One call at a time *)

Lemma exec_returns (c : call) (w : World) :
  call_asserted c = true -> exists w', exec c w = Returned tt w'.
Proof.
  intros H. destruct c as [? | ? | k | ? ? | k ?]; cbn in H;
    unfold_members; cbn; try rewrite H; cbn;
    try destruct k; split_tests; eauto.
Qed.

Lemma exec_aborts (c : call) (w : World) :
  call_asserted c = false -> exec c w = Aborted.
Proof.
  intros H. destruct c as [? | ? | k | ? ? | k ?]; cbn in H;
    try discriminate; unfold_members; cbn; rewrite H; reflexivity.
Qed.

Lemma run_returns (cs : list call) (w : World) :
  forallb call_asserted cs = true -> exists w', run cs w = Returned tt w'.
Proof.
  revert w. induction cs as [|c cs IH]; intros w H; cbn in *.
  - unfold ret. eauto.
  - apply andb_true_iff in H as [Hc Hcs].
    destruct (exec_returns c w Hc) as [w1 E].
    unfold bind. rewrite E. apply IH, Hcs.
Qed.

Lemma run_cons (c : call) (cs : list call) (w w' : World) :
  run (c :: cs) w = Returned tt w' ->
  exists w1, exec c w = Returned tt w1 /\ run cs w1 = Returned tt w'.
Proof.
  cbn. unfold bind. destruct (exec c w) as [[] w1|] eqn:E; [|discriminate].
  eauto.
Qed.

(** What one call does to the deadline record and its flag. *)
Lemma exec_deadline (c : call) (w w' : World) :
  exec c w = Returned tt w' ->
  requested_deadline_missed_status_ (self w') =
    match c with
    | call_on_requested_deadline_missed status =>
        {| fastdds.total_count := fastdds.total_count status;
           fastdds.total_count_change :=
             wrap_uint32
               (fastdds.total_count_change (requested_deadline_missed_status_ (self w))
                + fastdds.total_count_change status) |}
    | call_takeNextEvent RMW_EVENT_REQUESTED_DEADLINE_MISSED _ =>
        {| fastdds.total_count :=
             fastdds.total_count (requested_deadline_missed_status_ (self w));
           fastdds.total_count_change := 0 |}
    | _ => requested_deadline_missed_status_ (self w)
    end
  /\ deadline_changes_ (self w') =
    match c with
    | call_on_requested_deadline_missed _ => true
    | call_takeNextEvent RMW_EVENT_REQUESTED_DEADLINE_MISSED _ => false
    | _ => deadline_changes_ (self w)
    end.
Proof. intros H. step_call c; auto. Qed.

(** What one call does to the liveliness record and its flag. *)
Lemma exec_liveliness (c : call) (w w' : World) :
  exec c w = Returned tt w' ->
  liveliness_changed_status_ (self w') =
    match c with
    | call_on_liveliness_changed status =>
        {| fastdds.alive_count := fastdds.alive_count status;
           fastdds.not_alive_count := fastdds.not_alive_count status;
           fastdds.alive_count_change :=
             wrap_int32
               (fastdds.alive_count_change (liveliness_changed_status_ (self w))
                + fastdds.alive_count_change status);
           fastdds.not_alive_count_change :=
             wrap_int32
               (fastdds.not_alive_count_change (liveliness_changed_status_ (self w))
                + fastdds.not_alive_count_change status) |}
    | call_takeNextEvent RMW_EVENT_LIVELINESS_CHANGED _ =>
        {| fastdds.alive_count :=
             fastdds.alive_count (liveliness_changed_status_ (self w));
           fastdds.not_alive_count :=
             fastdds.not_alive_count (liveliness_changed_status_ (self w));
           fastdds.alive_count_change := 0;
           fastdds.not_alive_count_change := 0 |}
    | _ => liveliness_changed_status_ (self w)
    end
  /\ liveliness_changes_ (self w') =
    match c with
    | call_on_liveliness_changed _ => true
    | call_takeNextEvent RMW_EVENT_LIVELINESS_CHANGED _ => false
    | _ => liveliness_changes_ (self w)
    end.
Proof. intros H. step_call c; auto. Qed.

(** What one call does to the dispatcher: the registered callback, its
    user data, the buffered count, and the callback invocations. *)
Lemma exec_dispatcher (c : call) (w w' : World) :
  exec c w = Returned tt w' ->
  listener_callback_ (self w') =
    match c with
    | call_eventSetExecutorCallback _ callback => callback
    | _ => listener_callback_ (self w)
    end
  /\ user_data_ (self w') =
    match c with
    | call_eventSetExecutorCallback user_data callback =>
        if is_null callback then nullptr else user_data
    | _ => user_data_ (self w)
    end
  /\ unread_events_count_ (self w') =
    match c with
    | call_eventSetExecutorCallback _ callback =>
        if is_null callback then unread_events_count_ (self w) else 0
    | call_hasEvent _ | call_takeNextEvent _ _ => unread_events_count_ (self w)
    | _ =>
        if is_null (listener_callback_ (self w))
        then wrap_uint64 (unread_events_count_ (self w) + 1)
        else unread_events_count_ (self w)
    end
  /\ callbacks (trace w') = callbacks (trace w) ++
    match c with
    | call_eventSetExecutorCallback user_data callback =>
        if is_null callback || (unread_events_count_ (self w) =? 0) then []
        else [(callback, user_data, unread_events_count_ (self w))]
    | call_hasEvent _ | call_takeNextEvent _ _ => []
    | _ =>
        if is_null (listener_callback_ (self w)) then []
        else [(listener_callback_ (self w), user_data_ (self w), 1)]
    end.
Proof.
  intros H. step_call c;
    repeat rewrite callbacks_app; cbn; repeat rewrite app_nil_r;
    repeat rewrite <- app_assoc; cbn;
    repeat match goal with
           | E : is_null ?p = true |- _ =>
               apply N.eqb_eq in E; try rewrite E in *
           | E : (_ =? _) = true |- _ => apply Z.eqb_eq in E; try rewrite E in *
           end;
    auto 10.
Qed.

(** ** Accumulation of the delta fields *)

Lemma last_cons {A} (a : A) (l : list A) (d : A) : last (a :: l) d = last l a.
Proof.
  revert a d. induction l as [|b l IH]; intros a d; [reflexivity|].
  change (last (a :: b :: l) d) with (last (b :: l) d).
  rewrite !IH. reflexivity.
Qed.

Lemma run_deadline_change (cs : list call) (w w' : World) :
  run cs w = Returned tt w' ->
  forallb (fun c => negb (takes RMW_EVENT_REQUESTED_DEADLINE_MISSED c)) cs = true ->
  wrap_uint32 (fastdds.total_count_change (requested_deadline_missed_status_ (self w')))
  = wrap_uint32
      (fastdds.total_count_change (requested_deadline_missed_status_ (self w))
       + Zsum (map fastdds.total_count_change (deadline_statuses cs))).
Proof.
  revert w. induction cs as [|c cs IH]; intros w Hrun Hcs.
  - cbn in Hrun. unfold ret in Hrun. inversion Hrun; subst. cbn.
    rewrite Z.add_0_r. reflexivity.
  - apply run_cons in Hrun as (w1 & E & Hrun).
    cbn [forallb] in Hcs. apply andb_true_iff in Hcs as [Hc Hcs].
    rewrite (IH w1 Hrun Hcs). apply exec_deadline in E as [E _]. rewrite E.
    destruct c as [st | ? | ? | ? ? | [| |?] ?]; cbn in *;
      try discriminate; try reflexivity.
    unfold Zsum; cbn. rewrite wrap_uint32_add_l. f_equal. ring.
Qed.

Lemma window_start_zero (k : rmw_event_type_t) (w : World) :
  handled k = true -> window_start k w ->
  Forall (eq 0) (stored_delta k (self w)).
Proof.
  intros Hk [cm cv tr | w0 info r w' Htake].
  - destruct k; cbn in *; try discriminate; repeat constructor.
  - destruct k; try discriminate; unfold_members; cbn in *;
      split_tests; returned; cbn; repeat constructor.
Qed.

Lemma take_returns (k : rmw_event_type_t) (event_info : event_info_t) (w : World) :
  handled k = true ->
  asserted k = true ->
  exists info' w',
    takeNextEvent k event_info w = Returned (true, info') w'
    /\ absolute_fields info' = map (converted k) (stored_absolute k (self w))
    /\ delta_fields info' = map (converted k) (stored_delta k (self w)).
Proof.
  intros Hk Ha. unfold asserted in Ha.
  destruct k as [| |?]; try discriminate;
    unfold takeNextEvent, assert; rewrite Ha;
    unfold lock_guard, bind, ret, this, modify, emit; cbn;
    eexists _, _; repeat split.
Qed.

Lemma converted_in_int32 (k : rmw_event_type_t) (l : list Z) :
  Forall in_int32 l -> map (converted k) l = l.
Proof.
  intros H. induction H as [|z l Hz _ IH]; [reflexivity|].
  cbn. rewrite IH. f_equal. destruct k; cbn; auto using wrap_int32_small.
Qed.

Lemma run_liveliness_exact (cs : list call) (w w' : World) :
  run cs w = Returned tt w' ->
  forallb (fun c => negb (takes RMW_EVENT_LIVELINESS_CHANGED c)) cs = true ->
  Forall in_int32
    (running_sums (fastdds.alive_count_change (liveliness_changed_status_ (self w)))
       (map fastdds.alive_count_change (liveliness_statuses cs))) ->
  Forall in_int32
    (running_sums (fastdds.not_alive_count_change (liveliness_changed_status_ (self w)))
       (map fastdds.not_alive_count_change (liveliness_statuses cs))) ->
  fastdds.alive_count_change (liveliness_changed_status_ (self w'))
  = fastdds.alive_count_change (liveliness_changed_status_ (self w))
    + Zsum (map fastdds.alive_count_change (liveliness_statuses cs))
  /\ fastdds.not_alive_count_change (liveliness_changed_status_ (self w'))
  = fastdds.not_alive_count_change (liveliness_changed_status_ (self w))
    + Zsum (map fastdds.not_alive_count_change (liveliness_statuses cs)).
Proof.
  revert w. induction cs as [|c cs IH]; intros w Hrun Hcs Ha Hn.
  - cbn in Hrun. unfold ret in Hrun. inversion Hrun; subst. cbn.
    unfold Zsum; cbn. rewrite !Z.add_0_r. auto.
  - apply run_cons in Hrun as (w1 & E & Hrun).
    cbn [forallb] in Hcs. apply andb_true_iff in Hcs as [Hc Hcs].
    apply exec_liveliness in E as [E _].
    destruct c as [? | st | ? | ? ? | [| |?] ?]; cbn in Hc; try discriminate;
      cbn [liveliness_statuses map running_sums] in Ha, Hn |- *;
      try (destruct (IH w1 Hrun Hcs) as [IHa IHn];
           [rewrite E; exact Ha | rewrite E; exact Hn |];
           rewrite IHa, IHn, E; auto).
    inversion Ha as [|? ? Ha1 Ha']; subst. inversion Hn as [|? ? Hn1 Hn']; subst.
    destruct (IH w1 Hrun Hcs) as [IHa IHn].
    + rewrite E. cbn. rewrite wrap_int32_small by exact Ha1. exact Ha'.
    + rewrite E. cbn. rewrite wrap_int32_small by exact Hn1. exact Hn'.
    + rewrite IHa, IHn, E. cbn.
      rewrite !wrap_int32_small by assumption. unfold Zsum; cbn. split; ring.
Qed.

(** C1 (amended).  Let a window for a handled kind [k] open at [w0]
    (construction, or a [takeNextEvent k]) and let any history [cs] without
    a [takeNextEvent k] follow, in which no signed accumulation overflows.
    Then [takeNextEvent k] returns true and fills each delta field with the
    sum of the contributions of all handler calls for [k] in [cs], as
    converted into the [int32_t] field: for the liveliness kind the sum
    itself; for the deadline kind, whose [uint32_t] accumulator wraps and is
    copied into an [int32_t], the sum reduced modulo 2^32 into the [int32_t]
    range.  So the delta fields are the sums whenever the sums are
    [int32_t] values. *)
Theorem take_returns_accumulated_deltas
    (k : rmw_event_type_t) (w0 w1 : World) (cs : list call) (event_info : event_info_t) :
  handled k = true ->
  asserted k = true ->
  window_start k w0 ->
  forallb (fun c => negb (takes k c)) cs = true ->
  run cs w0 = Returned tt w1 ->
  accumulation_defined k cs ->
  exists info' w2,
    takeNextEvent k event_info w1 = Returned (true, info') w2
    /\ delta_fields info' = map (converted k) (recorded_deltas k cs)
    /\ (Forall in_int32 (recorded_deltas k cs) ->
        delta_fields info' = recorded_deltas k cs).
Proof.
  intros Hk Ha Hstart Hcs Hrun Hdef.
  pose proof (window_start_zero k w0 Hk Hstart) as Hzero.
  destruct (take_returns k event_info w1 Hk Ha) as (info' & w2 & E & _ & Ed).
  exists info', w2. split; [exact E|].
  assert (Hsum : delta_fields info' = map (converted k) (recorded_deltas k cs)).
  { rewrite Ed. destruct k as [| |?]; try discriminate; cbn in Hzero, Hdef |- *.
    - inversion Hzero as [|? ? Hz1 Hz']; subst. inversion Hz' as [|? ? Hz2 _]; subst.
      destruct Hdef as [Hda Hdn].
      destruct (run_liveliness_exact cs w0 w1 Hrun Hcs) as [Ea En].
      { rewrite <- Hz1. exact Hda. }
      { rewrite <- Hz2. exact Hdn. }
      rewrite Ea, En, <- Hz1, <- Hz2. reflexivity.
    - inversion Hzero as [|? ? Hz1 _]; subst.
      pose proof (run_deadline_change cs w0 w1 Hrun Hcs) as Ew.
      rewrite <- Hz1 in Ew. cbn in Ew.
      rewrite <- wrap_int32_uint32, Ew, wrap_int32_uint32. reflexivity. }
  split; [exact Hsum|].
  intros Hrange. rewrite Hsum. apply converted_in_int32, Hrange.
Qed.

(** ** Absolute fields *)

Lemma last_map_some {A B} (f : A -> B) (l : list A) (d : option B) :
  last (map (fun a => Some (f a)) l) d =
  match last (map (fun a => Some (f a)) l) None with
  | Some b => Some b
  | None => d
  end.
Proof.
  revert d. induction l as [|a l IH]; intros d; [reflexivity|].
  cbn [map]. rewrite !last_cons. rewrite (IH (Some (f a))).
  destruct (last (map (fun a0 => Some (f a0)) l) None); reflexivity.
Qed.

(** One call leaves the state of a kind alone unless it is the handler or
    the take of that kind. *)
Lemma exec_kind (k : rmw_event_type_t) (c : call) (w w' : World) :
  handled k = true ->
  exec c w = Returned tt w' ->
  stored_absolute k (self w') =
    (match recorded_absolute k [c] with
     | Some A => A
     | None => stored_absolute k (self w)
     end)
  /\ (records k c = false ->
      stored_delta k (self w') =
        if takes k c then map (fun _ => 0) (stored_delta k (self w))
        else stored_delta k (self w))
  /\ unread_flag k (self w') =
       if records k c then true
       else if takes k c then false
       else unread_flag k (self w).
Proof.
  intros Hk E.
  pose proof (exec_deadline c w w' E) as [Ed Edf].
  pose proof (exec_liveliness c w w' E) as [El Elf].
  destruct k as [| |?]; try discriminate; cbn;
    rewrite ?Ed, ?Edf, ?El, ?Elf;
    destruct c as [? | ? | ? | ? ? | [| |?] ?]; cbn; auto;
    split; auto; split; auto; discriminate.
Qed.

Lemma run_absolute (k : rmw_event_type_t) (cs : list call) (w w' : World) :
  handled k = true ->
  run cs w = Returned tt w' ->
  stored_absolute k (self w') =
    match recorded_absolute k cs with
    | Some A => A
    | None => stored_absolute k (self w)
    end.
Proof.
  intros Hk. revert w. induction cs as [|c cs IH]; intros w Hrun.
  - cbn in Hrun. unfold ret in Hrun. inversion Hrun; subst.
    destruct k; try discriminate; reflexivity.
  - apply run_cons in Hrun as (w1 & E & Hrun).
    rewrite (IH w1 Hrun). apply (exec_kind k) in E as [E _]; [|exact Hk].
    rewrite E. clear.
    destruct k as [| |?]; [| |reflexivity];
      destruct c as [? | ? | ? | ? ? | ? ?];
      unfold recorded_absolute;
      cbn [deadline_statuses liveliness_statuses map]; try reflexivity;
      rewrite !last_cons; cbn [last];
      match goal with
      | |- context [last (map (fun st => Some (@?f st)) ?l) (Some ?x)] =>
          rewrite (last_map_some f l (Some x));
          destruct (last (map (fun st => Some (f st)) l) None)
      end; reflexivity.
Qed.

(** C5 (amended).  After any history [cs] in which the handler of a
    handled kind [k] was called at least once, [takeNextEvent k] returns
    true and fills the absolute fields with those of the last handler call
    for [k], whatever the earlier calls supplied (takes included), as
    converted into the [int32_t] field: for the liveliness kind the recorded
    values themselves; for the deadline kind, whose [uint32_t] total is
    copied into an [int32_t], the recorded value reduced modulo 2^32 into
    the [int32_t] range.  So the absolute fields are the recorded values
    whenever these are [int32_t] values. *)
Theorem take_returns_last_absolute
    (k : rmw_event_type_t) (w0 w1 : World) (cs : list call)
    (A : list Z) (event_info : event_info_t) :
  handled k = true ->
  asserted k = true ->
  run cs w0 = Returned tt w1 ->
  recorded_absolute k cs = Some A ->
  exists info' w2,
    takeNextEvent k event_info w1 = Returned (true, info') w2
    /\ absolute_fields info' = map (converted k) A
    /\ (Forall in_int32 A -> absolute_fields info' = A).
Proof.
  intros Hk Ha Hrun Hlast.
  pose proof (run_absolute k cs w0 w1 Hk Hrun) as Habs. rewrite Hlast in Habs.
  destruct (take_returns k event_info w1 Hk Ha) as (info' & w2 & E & Eabs & _).
  exists info', w2. split; [exact E|].
  rewrite Eabs, Habs. split; [reflexivity|].
  intros Hrange. apply converted_in_int32, Hrange.
Qed.

(** ** Flags and frames *)

Lemma recorded_absolute_single (k : rmw_event_type_t) (c : call) :
  records k c = false -> recorded_absolute k [c] = None.
Proof.
  destruct k, c; cbn; intros H; try discriminate; reflexivity.
Qed.

Lemma all_zero_map (l : list Z) : Forall (eq 0) (map (fun _ => 0) l).
Proof. induction l; cbn; constructor; auto. Qed.

(** Calls that are neither the handler nor the take of kind [k] leave the
    whole state of kind [k] as it was. *)
Lemma run_kind_frame (k : rmw_event_type_t) (cs : list call) (w w' : World) :
  handled k = true ->
  forallb (fun c => negb (records k c || takes k c)) cs = true ->
  run cs w = Returned tt w' ->
  stored_absolute k (self w') = stored_absolute k (self w)
  /\ stored_delta k (self w') = stored_delta k (self w)
  /\ unread_flag k (self w') = unread_flag k (self w).
Proof.
  intros Hk. revert w. induction cs as [|c cs IH]; intros w Hcs Hrun.
  - cbn in Hrun. unfold ret in Hrun. inversion Hrun; subst. auto.
  - apply run_cons in Hrun as (w1 & E & Hrun).
    cbn [forallb] in Hcs. apply andb_true_iff in Hcs as [Hc Hcs].
    apply negb_true_iff, orb_false_iff in Hc as [Hr Ht].
    destruct (IH w1 Hcs Hrun) as (Ha & Hd & Hf). rewrite Ha, Hd, Hf.
    apply (exec_kind k) in E as (Ea & Ed & Ef); [|exact Hk].
    rewrite Ea, (Ed Hr), Ef, Hr, Ht, (recorded_absolute_single k c Hr). auto.
Qed.

(** Without a handler call for kind [k], the absolute fields of [k] stay,
    delta fields that are zero stay zero, and a cleared flag stays
    cleared. *)
Lemma run_without_record (k : rmw_event_type_t) (cs : list call) (w w' : World) :
  handled k = true ->
  forallb (fun c => negb (records k c)) cs = true ->
  run cs w = Returned tt w' ->
  stored_absolute k (self w') = stored_absolute k (self w)
  /\ (Forall (eq 0) (stored_delta k (self w)) ->
      Forall (eq 0) (stored_delta k (self w')))
  /\ (unread_flag k (self w) = false -> unread_flag k (self w') = false).
Proof.
  intros Hk. revert w. induction cs as [|c cs IH]; intros w Hcs Hrun.
  - cbn in Hrun. unfold ret in Hrun. inversion Hrun; subst. auto.
  - apply run_cons in Hrun as (w1 & E & Hrun).
    cbn [forallb] in Hcs. apply andb_true_iff in Hcs as [Hc Hcs].
    apply negb_true_iff in Hc.
    destruct (IH w1 Hcs Hrun) as (Ha & Hd & Hf). rewrite Ha.
    apply (exec_kind k) in E as (Ea & Ed & Ef); [|exact Hk].
    rewrite Hc in Ef. specialize (Ed Hc).
    rewrite Ea, (recorded_absolute_single k c Hc).
    split; [reflexivity|]. split.
    + intros Hz. apply Hd. rewrite Ed.
      destruct (takes k c); [apply all_zero_map | exact Hz].
    + intros Hz. apply Hf. rewrite Ef. destruct (takes k c); auto.
Qed.

(** Without a take of kind [k], a raised flag of [k] stays raised. *)
Lemma run_without_take (k : rmw_event_type_t) (cs : list call) (w w' : World) :
  handled k = true ->
  forallb (fun c => negb (takes k c)) cs = true ->
  run cs w = Returned tt w' ->
  unread_flag k (self w) = true -> unread_flag k (self w') = true.
Proof.
  intros Hk. revert w. induction cs as [|c cs IH]; intros w Hcs Hrun Hf.
  - cbn in Hrun. unfold ret in Hrun. inversion Hrun; subst. exact Hf.
  - apply run_cons in Hrun as (w1 & E & Hrun).
    cbn [forallb] in Hcs. apply andb_true_iff in Hcs as [Hc Hcs].
    apply negb_true_iff in Hc.
    apply (IH w1 Hcs Hrun).
    apply (exec_kind k) in E as (_ & _ & Ef); [|exact Hk].
    rewrite Ef, Hc. destruct (records k c); auto.
Qed.

Lemma hasEvent_reads_flag (k : rmw_event_type_t) (w : World) :
  asserted k = true -> hasEvent k w = Returned (unread_flag k (self w)) w.
Proof.
  unfold asserted, hasEvent, assert, bind, ret, this. intros ->.
  destruct w, k; reflexivity.
Qed.

(** C6 (flag correctness).  For a handled kind [k] whose assertion holds:
    after a handler call for [k], followed by any calls other than
    [takeNextEvent k], [hasEvent k] returns true; after a [takeNextEvent k],
    followed by any calls other than the handler of [k], [hasEvent k]
    returns false.  [c] is the handler call or the take; [hasEvent]
    returns whether it was the handler. *)
Theorem hasEvent_after_record_and_take
    (k : rmw_event_type_t) (c : call) (cs : list call) (w0 w1 : World) :
  handled k = true ->
  asserted k = true ->
  records k c || takes k c = true ->
  forallb (fun c' => negb (if records k c then takes k c' else records k c')) cs = true ->
  run (c :: cs) w0 = Returned tt w1 ->
  hasEvent k w1 = Returned (records k c) w1.
Proof.
  intros Hk Ha Hc Hcs Hrun.
  rewrite (hasEvent_reads_flag k w1 Ha). f_equal.
  apply run_cons in Hrun as (w' & E & Hrun).
  apply (exec_kind k) in E as (_ & _ & Ef); [|exact Hk].
  destruct (records k c) eqn:Hr.
  - apply (run_without_take k cs w' w1 Hk Hcs Hrun Ef).
  - cbn in Hc. rewrite Hc in Ef.
    apply (run_without_record k cs w' w1 Hk Hcs Hrun), Ef.
Qed.

(** C8 (take is what resets the deltas).  For a handled kind [k]: calls
    [cs0] that are neither the handler nor the take of [k] leave the delta
    fields of [k] as they were; [takeNextEvent k] then sets exactly the
    delta fields of the record of [k] to zero and leaves its absolute fields
    alone; and after any further calls [cs] without a handler call for [k],
    a second [takeNextEvent k] returns delta fields that are all zero
    together with the same absolute fields as the first one returned. *)
Theorem second_take_returns_zero_deltas
    (k : rmw_event_type_t) (cs0 cs : list call) (w0 w w1 w2 : World)
    (event_info1 event_info2 : event_info_t) (r1 : bool * event_info_t) :
  handled k = true ->
  asserted k = true ->
  forallb (fun c => negb (records k c || takes k c)) cs0 = true ->
  run cs0 w0 = Returned tt w ->
  takeNextEvent k event_info1 w = Returned r1 w1 ->
  forallb (fun c => negb (records k c)) cs = true ->
  run cs w1 = Returned tt w2 ->
  stored_delta k (self w) = stored_delta k (self w0)
  /\ Forall (eq 0) (stored_delta k (self w1))
  /\ stored_absolute k (self w1) = stored_absolute k (self w)
  /\ exists info2 w3,
       takeNextEvent k event_info2 w2 = Returned (true, info2) w3
       /\ Forall (eq 0) (delta_fields info2)
       /\ absolute_fields info2 = absolute_fields (snd r1).
Proof.
  intros Hk Ha Hcs0 Hrun0 Htake Hcs Hrun.
  destruct (run_kind_frame k cs0 w0 w Hk Hcs0 Hrun0) as (_ & Hd0 & _).
  split; [exact Hd0|].
  assert (Hstart : window_start k w1) by (eapply window_taken; exact Htake).
  pose proof (window_start_zero k w1 Hk Hstart) as Hzero.
  split; [exact Hzero|].
  destruct (take_returns k event_info1 w Hk Ha) as (i1 & w1' & E1 & Eabs1 & _).
  rewrite E1 in Htake. inversion Htake; subst r1 w1'. clear Htake.
  assert (Habs1 : stored_absolute k (self w1) = stored_absolute k (self w)).
  { assert (Hex : exec (call_takeNextEvent k event_info1) w = Returned tt w1)
      by (cbn; unfold bind; rewrite E1; reflexivity).
    apply (exec_kind k) in Hex as (Hex & _); [|exact Hk].
    rewrite Hex. destruct k; try discriminate; reflexivity. }
  split; [exact Habs1|].
  destruct (run_without_record k cs w1 w2 Hk Hcs Hrun) as (Habs2 & Hd2 & _).
  destruct (take_returns k event_info2 w2 Hk Ha) as (i2 & w3 & E2 & Eabs2 & Ed2).
  exists i2, w3. split; [exact E2|]. split.
  - rewrite Ed2. specialize (Hd2 Hzero). clear - Hd2.
    induction Hd2 as [|z l Hz _ IH]; cbn; constructor; auto.
    subst z. destruct k; reflexivity.
  - cbn [snd]. rewrite Eabs2, Eabs1, Habs2, Habs1. reflexivity.
Qed.

(** C10 (per-kind isolation).  A call that is neither the handler nor the
    take of a handled kind [k] (in particular the handler or the take of
    the other kind) leaves the record of [k], absolute and delta fields, and
    the flag of [k] unchanged. *)
Theorem other_kind_untouched
    (k : rmw_event_type_t) (c : call) (w w' : World) :
  handled k = true ->
  records k c || takes k c = false ->
  exec c w = Returned tt w' ->
  stored_absolute k (self w') = stored_absolute k (self w)
  /\ stored_delta k (self w') = stored_delta k (self w)
  /\ unread_flag k (self w') = unread_flag k (self w).
Proof.
  intros Hk Hc E.
  apply (run_kind_frame k [c] w w' Hk).
  - cbn. rewrite Hc. reflexivity.
  - cbn. unfold bind. rewrite E. reflexivity.
Qed.

(** ** The dispatcher *)




Lemma SubListener_new_idle (conditionMutex conditionVariable : pointer) :
  idle (SubListener_new conditionMutex conditionVariable).
Proof. split; reflexivity. Qed.

(** Unregistering a registered callback leaves the dispatcher idle. *)
Lemma unregister_idle (user_data : pointer) (w w' : World) :
  dispatcher_invariant (self w) ->
  is_null (listener_callback_ (self w)) = false ->
  eventSetExecutorCallback user_data nullptr w = Returned tt w' ->
  idle (self w').
Proof.
  intros Hinv Hreg E. specialize (Hinv Hreg).
  apply (exec_dispatcher (call_eventSetExecutorCallback user_data nullptr))
    in E as (Ecb & _ & Ecnt & _).
  cbn in Ecnt. split; [rewrite Ecb; reflexivity | congruence].
Qed.


(** C9 (immediate delivery).  With a callback registered, every handler call
    returns, invokes the registered callback exactly once, with the
    registered user data and the count 1, before it returns, and leaves the
    buffered count as it was. *)
Theorem record_invokes_registered_callback (c : call) (w : World) :
  is_null (listener_callback_ (self w)) = false ->
  is_record c = true ->
  exists w',
    exec c w = Returned tt w'
    /\ callbacks (trace w') =
         callbacks (trace w) ++ [(listener_callback_ (self w), user_data_ (self w), 1)]
    /\ unread_events_count_ (self w') = unread_events_count_ (self w).
Proof.
  intros Hreg Hc.
  destruct (exec_returns c w) as [w' E].
  { destruct c; try discriminate; reflexivity. }
  exists w'. split; [exact E|].
  apply exec_dispatcher in E as (_ & _ & Ecnt & Etr).
  rewrite Hreg in Ecnt, Etr.
  destruct c; try discriminate; auto.
Qed.

Lemma exec_invariant (c : call) (w w' : World) :
  dispatcher_invariant (self w) ->
  exec c w = Returned tt w' ->
  dispatcher_invariant (self w').
Proof.
  unfold dispatcher_invariant. intros Hinv E.
  apply exec_dispatcher in E as (Ecb & _ & Ecnt & _).
  rewrite Ecb, Ecnt. clear Ecb Ecnt.
  destruct c as [? | ? | ? | ud cb | ? ?]; cbn; auto;
    destruct (is_null (listener_callback_ (self w))) eqn:Hreg;
    try destruct (is_null cb) eqn:Hcb; intros; auto; discriminate.
Qed.

Lemma run_invariant (cs : list call) (w w' : World) :
  dispatcher_invariant (self w) ->
  run cs w = Returned tt w' ->
  dispatcher_invariant (self w').
Proof.
  revert w. induction cs as [|c cs IH]; intros w Hinv Hrun.
  - cbn in Hrun. unfold ret in Hrun. inversion Hrun; subst. exact Hinv.
  - apply run_cons in Hrun as (w1 & E & Hrun).
    apply (IH w1); [|exact Hrun]. apply (exec_invariant c w w1 Hinv E).
Qed.

(** Every world reachable from a constructed object satisfies the
    invariant. *)
Lemma reachable_invariant (w : World) :
  reachable w -> dispatcher_invariant (self w).
Proof.
  intros (cm & cv & cs & Hrun).
  eapply run_invariant; [|exact Hrun]. intros Hreg. discriminate Hreg.
Qed.

(** C4 (dispatcher invariant).  Every call preserves: the buffered count is
    zero whenever a callback is registered.  Moreover no call changes the
    buffered count while a callback is registered, and a call that
    registers a callback leaves the count at zero. *)
Theorem dispatcher_invariant_preserved (c : call) (w w' : World) :
  dispatcher_invariant (self w) ->
  exec c w = Returned tt w' ->
  dispatcher_invariant (self w')
  /\ (is_null (listener_callback_ (self w)) = false ->
      unread_events_count_ (self w') = unread_events_count_ (self w))
  /\ (registers c = true -> unread_events_count_ (self w') = 0).
Proof.
  intros Hinv E. split; [exact (exec_invariant c w w' Hinv E)|].
  apply exec_dispatcher in E as (_ & _ & Ecnt & _). rewrite Ecnt.
  split.
  - intros Hreg. rewrite Hreg.
    destruct c as [? | ? | ? | ud cb | ? ?]; auto.
    destruct (is_null cb); [reflexivity|]. symmetry. apply Hinv, Hreg.
  - destruct c as [? | ? | ? | ud cb | ? ?]; cbn; try discriminate.
    destruct (is_null cb); [discriminate | reflexivity].
Qed.

(** ** Kinds without a case in the switch *)

(** C7 (amended).  [takeNextEvent] aborts at its entry assertion when the
    assertion is compiled in and [is_event_supported] rejects the kind.
    When the assertion lets the kind through, the call returns, and it
    returns true exactly for the two handled kinds; for any other kind it
    returns false and leaves the object and the pointee of [event_info] as
    they were, having only taken and released [internalMutex_]. *)
Theorem takeNextEvent_by_kind
    (k : rmw_event_type_t) (event_info : event_info_t) (w : World) :
  (asserted k = false -> takeNextEvent k event_info w = Aborted)
  /\ (asserted k = true ->
      exists info' w',
        takeNextEvent k event_info w = Returned (handled k, info') w'
        /\ (handled k = false ->
            info' = event_info
            /\ self w' = self w
            /\ trace w' = trace w ++ [EvLock internalMutex_; EvUnlock internalMutex_])).
Proof.
  unfold asserted. split; intros Ha;
    unfold takeNextEvent, assert, bind; rewrite Ha; [reflexivity|].
  destruct k as [| |tag]; unfold lock_guard, bind, ret, this, modify, emit, abort; cbn;
    eexists _, _; (split; [reflexivity|]); intros Hk; try discriminate Hk.
  rewrite <- app_assoc. auto.
Qed.

(** ** Lock nesting of the handlers *)


(** ** Lock discipline of all member functions *)

Lemma held_after_app (held : list mutex) (t1 t2 : list event) :
  held_after held (t1 ++ t2) = held_after (held_after held t1) t2.
Proof.
  revert held. induction t1 as [|e t1 IH]; intros held; [reflexivity|].
  destruct e; cbn; apply IH.
Qed.

Lemma ordered_locking_app (held : list mutex) (t1 t2 : list event) :
  ordered_locking held (t1 ++ t2)
  = ordered_locking held t1 && ordered_locking (held_after held t1) t2.
Proof.
  revert held. induction t1 as [|e t1 IH]; intros held; [reflexivity|].
  destruct e as [m | m | ? | ? ? ?]; cbn.
  - rewrite IH, andb_assoc. reflexivity.
  - destruct held as [|h held']; [reflexivity|]. cbn.
    destruct (mutex_eqb m h); [|reflexivity]. cbn. apply IH.
  - apply IH.
  - apply IH.
Qed.

Lemma held_at_callback_app (held : list mutex) (t1 t2 : list event) :
  held_at_callback held (t1 ++ t2)
  = held_at_callback held t1 ++ held_at_callback (held_after held t1) t2.
Proof.
  revert held. induction t1 as [|e t1 IH]; intros held; [reflexivity|].
  destruct e; cbn; rewrite IH; reflexivity.
Qed.

(** The actions of one call, started with no lock held. *)
Lemma exec_locks (c : call) (w w' : World) :
  exec c w = Returned tt w' ->
  exists seg,
    trace w' = trace w ++ seg
    /\ ordered_locking [] seg = true
    /\ held_after [] seg = []
    /\ forallb holds_dispatcher_lock (held_at_callback [] seg) = true.
Proof.
  intros H. step_call c;
    repeat rewrite <- app_assoc; cbn;
    first [ eexists; split; [reflexivity|]
          | exists []; split; [symmetry; apply app_nil_r|] ];
    cbn; unfold mutex_eqb; rewrite ?N.eqb_refl; cbn; auto.
Qed.

(** X1 (lock discipline).  Along every history of member-function calls,
    started with no lock held, each lock is taken only while locks of lower
    rank are held (the order is [internalMutex_], the wait-coordination
    mutex, [listener_callback_mutex_]), locks are released in the reverse
    order of their acquisition, and no lock is held when the history
    ends. *)
Theorem history_keeps_lock_order (cs : list call) (w w' : World) :
  ordered_locking [] (trace w) = true ->
  held_after [] (trace w) = [] ->
  run cs w = Returned tt w' ->
  ordered_locking [] (trace w') = true /\ held_after [] (trace w') = [].
Proof.
  revert w. induction cs as [|c cs IH]; intros w Hord Hheld Hrun.
  - cbn in Hrun. unfold ret in Hrun. inversion Hrun; subst. auto.
  - apply run_cons in Hrun as (w1 & E & Hrun).
    apply exec_locks in E as (seg & Etr & Eord & Eheld & _).
    apply (IH w1); [| |exact Hrun]; rewrite Etr.
    + rewrite ordered_locking_app, Hord, Hheld, Eord. reflexivity.
    + rewrite held_after_app, Hheld. exact Eheld.
Qed.

(** X2 (the callback runs under the dispatcher lock).  Along every history,
    started with no lock held, each invocation of the executor callback,
    by a handler or by a registration, happens while
    [listener_callback_mutex_] is held. *)
Theorem callback_only_under_dispatcher_lock (cs : list call) (w w' : World) :
  held_after [] (trace w) = [] ->
  forallb holds_dispatcher_lock (held_at_callback [] (trace w)) = true ->
  run cs w = Returned tt w' ->
  forallb holds_dispatcher_lock (held_at_callback [] (trace w')) = true.
Proof.
  intros Hheld Hcb Hrun.
  cut (held_after [] (trace w') = []
       /\ forallb holds_dispatcher_lock (held_at_callback [] (trace w')) = true).
  { intros [_ H]. exact H. }
  revert w Hheld Hcb Hrun. induction cs as [|c cs IH]; intros w Hheld Hcb Hrun.
  - cbn in Hrun. unfold ret in Hrun. inversion Hrun; subst. auto.
  - apply run_cons in Hrun as (w1 & E & Hrun).
    apply exec_locks in E as (seg & Etr & _ & Eheld & Ecb).
    apply (IH w1); [| |exact Hrun]; rewrite Etr.
    + rewrite held_after_app, Hheld. exact Eheld.
    + rewrite held_at_callback_app, forallb_app, Hcb, Hheld, Ecb. reflexivity.
Qed.

(** ** Conservation of notifications *)

Lemma Zsum_app (l1 l2 : list Z) : Zsum (l1 ++ l2) = Zsum l1 + Zsum l2.
Proof.
  unfold Zsum. induction l1 as [|a l1 IH]; cbn; [reflexivity|].
  rewrite IH. ring.
Qed.

Lemma handler_calls_cons (c : call) (cs : list call) :
  handler_calls (c :: cs) = (if is_record c then 1 else 0) + handler_calls cs.
Proof.
  unfold handler_calls. cbn [filter]. destruct (is_record c); cbn [length].
  - rewrite Nat2Z.inj_succ. lia.
  - lia.
Qed.

Lemma handler_calls_nonneg (cs : list call) : 0 <= handler_calls cs.
Proof. unfold handler_calls. lia. Qed.

(** X3 (no notification lost, none counted twice).  Along any history, as
    long as the buffered count stays a [uint64_t] value, the events handed
    to the callback and the events still buffered grow together by exactly
    the number of handler calls: whatever registrations, unregistrations,
    polls and takes are interleaved, every handler call is either delivered
    once or still buffered. *)
Theorem notifications_conserved (cs : list call) (w w' : World) :
  0 <= unread_events_count_ (self w) ->
  unread_events_count_ (self w) + handler_calls cs <= UINT64_MAX ->
  run cs w = Returned tt w' ->
  notified (trace w') + unread_events_count_ (self w')
  = notified (trace w) + unread_events_count_ (self w) + handler_calls cs
  /\ 0 <= unread_events_count_ (self w') <= UINT64_MAX.
Proof.
  revert w. induction cs as [|c cs IH]; intros w Hlo Hhi Hrun.
  - cbn in Hrun. unfold ret in Hrun. inversion Hrun; subst.
    unfold handler_calls in *. cbn in *. lia.
  - apply run_cons in Hrun as (w1 & E & Hrun).
    rewrite handler_calls_cons in Hhi |- *.
    pose proof (handler_calls_nonneg cs) as Hn.
    apply exec_dispatcher in E as (_ & _ & Ecnt & Etr).
    assert (Hstep :
      notified (trace w1) + unread_events_count_ (self w1)
      = notified (trace w) + unread_events_count_ (self w)
        + (if is_record c then 1 else 0)
      /\ 0 <= unread_events_count_ (self w1)
      /\ unread_events_count_ (self w1) + handler_calls cs <= UINT64_MAX).
    { unfold notified in *. rewrite Etr, Ecnt, map_app, Zsum_app.
      clear Etr Ecnt IH Hrun.
      destruct c as [? | ? | ? | ud cb | ? ?]; cbn [is_record] in *;
        try destruct (is_null (listener_callback_ (self w)));
        try destruct (is_null cb); cbn;
        try destruct (unread_events_count_ (self w) =? 0) eqn:Hz; cbn;
        try (apply Z.eqb_eq in Hz);
        rewrite ?wrap_uint64_small by lia; unfold Zsum, UINT64_MAX in *; cbn; lia. }
    destruct Hstep as (Hs & Hlo1 & Hhi1).
    destruct (IH w1 Hlo1 Hhi1 Hrun) as [IHs IHr].
    split; [lia | exact IHr].
Qed.

(** ** A cleared flag means nothing is pending *)

Lemma exec_quiet (k : rmw_event_type_t) (c : call) (w w' : World) :
  handled k = true ->
  exec c w = Returned tt w' ->
  (unread_flag k (self w) = false -> Forall (eq 0) (stored_delta k (self w))) ->
  unread_flag k (self w') = false -> Forall (eq 0) (stored_delta k (self w')).
Proof.
  intros Hk E Hq. apply (exec_kind k) in E as (_ & Ed & Ef); [|exact Hk].
  rewrite Ef. destruct (records k c); [discriminate|].
  rewrite (Ed eq_refl). destruct (takes k c); [intros _; apply all_zero_map | exact Hq].
Qed.

Lemma run_quiet (k : rmw_event_type_t) (cs : list call) (w w' : World) :
  handled k = true ->
  run cs w = Returned tt w' ->
  (unread_flag k (self w) = false -> Forall (eq 0) (stored_delta k (self w))) ->
  unread_flag k (self w') = false -> Forall (eq 0) (stored_delta k (self w')).
Proof.
  intros Hk. revert w. induction cs as [|c cs IH]; intros w Hrun Hq.
  - cbn in Hrun. unfold ret in Hrun. inversion Hrun; subst. exact Hq.
  - apply run_cons in Hrun as (w1 & E & Hrun).
    apply (IH w1 Hrun). apply (exec_quiet k c w w1 Hk E Hq).
Qed.

(** X4 (a cleared flag means nothing is pending).  After any history of a
    constructed object: if [hasEvent k] returns false for a handled kind,
    then [takeNextEvent k] returns delta fields that are all zero.  (The
    converse fails: a handler call with zero deltas raises the flag.) *)
Theorem no_event_means_zero_deltas
    (k : rmw_event_type_t) (conditionMutex conditionVariable : pointer)
    (cs : list call) (w w' : World) (event_info : event_info_t) :
  handled k = true ->
  run cs {| self := SubListener_new conditionMutex conditionVariable; trace := [] |}
  = Returned tt w ->
  hasEvent k w = Returned false w' ->
  exists info' w2,
    takeNextEvent k event_info w = Returned (true, info') w2
    /\ Forall (eq 0) (delta_fields info').
Proof.
  intros Hk Hrun Hhas.
  assert (Ha : asserted k = true).
  { unfold hasEvent, assert, bind, abort in Hhas. unfold asserted.
    destruct (NDEBUG || is_event_supported k); [reflexivity | discriminate]. }
  rewrite (hasEvent_reads_flag k w Ha) in Hhas.
  assert (Hflag : unread_flag k (self w) = false) by congruence.
  assert (Hzero : Forall (eq 0) (stored_delta k (self w))).
  { apply (run_quiet k cs _ w Hk Hrun); [|exact Hflag].
    intros _. destruct k; try discriminate; cbn; repeat constructor. }
  destruct (take_returns k event_info w Hk Ha) as (info' & w2 & E & _ & Ed).
  exists info', w2. split; [exact E|]. rewrite Ed.
  clear - Hzero. induction Hzero as [|z l Hz _ IH]; cbn; constructor; auto.
  subst z. destruct k; reflexivity.
Qed.

(** ** Calls for different kinds commute *)

(** X5 (kinds are independent).  A handler call or take for one handled
    kind and a handler call or take for the other handled kind can be
    performed in either order: both orders return, and they leave the same
    object and the same sequence of callback invocations. *)
Theorem calls_of_different_kinds_commute
    (k1 k2 : rmw_event_type_t) (c1 c2 : call) (w : World) :
  handled k1 = true ->
  handled k2 = true ->
  k1 <> k2 ->
  touches k1 c1 = true ->
  touches k2 c2 = true ->
  call_asserted c1 = true ->
  call_asserted c2 = true ->
  exists w12 w21,
    run [c1; c2] w = Returned tt w12
    /\ run [c2; c1] w = Returned tt w21
    /\ self w12 = self w21
    /\ callbacks (trace w12) = callbacks (trace w21).
Proof.
  intros Hk1 Hk2 Hne H1 H2 Ha1 Ha2.
  destruct k1 as [| |?], k2 as [| |?]; try discriminate; try congruence;
    destruct c1 as [? | ? | ? | ? ? | [| |?] ?]; try discriminate;
    destruct c2 as [? | ? | ? | ? ? | [| |?] ?]; try discriminate;
    cbn in Ha1, Ha2; unfold run; unfold_members; cbn;
    rewrite ?Ha1, ?Ha2; cbn; split_tests;
    eexists _, _; (split; [reflexivity|]); (split; [reflexivity|]); cbn;
    rewrite ?callbacks_app; cbn; rewrite ?app_nil_r; auto.
Qed.

(** ** A registered callback gets every event *)

(** X6 (one invocation per handler call).  While a callback stays
    registered, that is along a history without [eventSetExecutorCallback]
    calls starting with a callback registered, every handler call invokes
    that callback with the registered user data and the count 1, in order,
    nothing else invokes it, and the callback, the user data and the
    buffered count stay as they were. *)
Theorem registered_callback_gets_every_event (cs : list call) (w w' : World) :
  is_null (listener_callback_ (self w)) = false ->
  forallb (fun c => negb (sets_callback c)) cs = true ->
  run cs w = Returned tt w' ->
  callbacks (trace w') =
    callbacks (trace w)
    ++ repeat (listener_callback_ (self w), user_data_ (self w), 1)
         (length (filter is_record cs))
  /\ listener_callback_ (self w') = listener_callback_ (self w)
  /\ user_data_ (self w') = user_data_ (self w)
  /\ unread_events_count_ (self w') = unread_events_count_ (self w).
Proof.
  revert w. induction cs as [|c cs IH]; intros w Hreg Hcs Hrun.
  - cbn in Hrun. unfold ret in Hrun. inversion Hrun; subst. cbn.
    rewrite app_nil_r. auto.
  - apply run_cons in Hrun as (w1 & E & Hrun).
    cbn [forallb] in Hcs. apply andb_true_iff in Hcs as [Hc Hcs].
    apply exec_dispatcher in E as (Ecb & Eud & Ecnt & Etr).
    rewrite Hreg in Ecnt, Etr.
    assert (Hsame : listener_callback_ (self w1) = listener_callback_ (self w)
                    /\ user_data_ (self w1) = user_data_ (self w)
                    /\ unread_events_count_ (self w1) = unread_events_count_ (self w)).
    { destruct c; try discriminate; auto. }
    destruct Hsame as (Hcb1 & Hud1 & Hcnt1).
    destruct (IH w1) as (IHt & IHcb & IHud & IHcnt); [congruence | exact Hcs | exact Hrun |].
    rewrite IHt, IHcb, IHud, IHcnt, Hcb1, Hud1, Hcnt1, Etr.
    repeat split. rewrite <- app_assoc. f_equal.
    destruct c; try discriminate; reflexivity.
Qed.

(** ** Polling is an observation only *)

Lemma hasEvent_unchanged (k : rmw_event_type_t) (w w' : World) (b : bool) :
  hasEvent k w = Returned b w' -> w' = w.
Proof.
  unfold hasEvent, assert, bind, ret, this, abort.
  destruct (NDEBUG || is_event_supported k); [|discriminate].
  destruct k; intros H; inversion H; reflexivity.
Qed.

(** X7 (polling is an observation only).  [hasEvent] takes no lock and
    changes nothing: removing every [hasEvent] call from a history that
    returns gives a history that returns the very same world, object and
    actions alike. *)
Theorem polls_can_be_dropped (cs : list call) (w w' : World) :
  run cs w = Returned tt w' ->
  run (filter (fun c => negb (is_poll c)) cs) w = Returned tt w'.
Proof.
  revert w. induction cs as [|c cs IH]; intros w Hrun; [exact Hrun|].
  apply run_cons in Hrun as (w1 & E & Hrun).
  destruct c as [st | st | k | ud cb | k info]; cbn [filter is_poll negb];
    try (cbn [run]; unfold bind; rewrite E; apply IH, Hrun).
  cbn [exec] in E. unfold bind, ret in E.
  destruct (hasEvent k w) as [b w0|] eqn:Eh; [|discriminate].
  inversion E; subst w0. apply hasEvent_unchanged in Eh. subst w1.
  apply IH, Hrun.
Qed.

(** ** After an unregistration *)

Lemma run_silent (cs : list call) (w w' : World) :
  is_null (listener_callback_ (self w)) = true ->
  forallb (fun c => negb (registers c)) cs = true ->
  run cs w = Returned tt w' ->
  is_null (listener_callback_ (self w')) = true
  /\ callbacks (trace w') = callbacks (trace w).
Proof.
  revert w. induction cs as [|c cs IH]; intros w Hnull Hcs Hrun.
  - cbn in Hrun. unfold ret in Hrun. inversion Hrun; subst. auto.
  - apply run_cons in Hrun as (w1 & E & Hrun).
    cbn [forallb] in Hcs. apply andb_true_iff in Hcs as [Hc Hcs].
    apply negb_true_iff in Hc.
    apply exec_dispatcher in E as (Ecb & _ & _ & Etr). rewrite Hnull in Etr.
    destruct (IH w1) as [IHn IHt]; [|exact Hcs|exact Hrun|].
    + rewrite Ecb. destruct c; cbn in *; auto. apply negb_false_iff, Hc.
    + split; [exact IHn|]. rewrite IHt, Etr.
      destruct c; cbn in *; rewrite ?app_nil_r; auto.
      apply negb_false_iff in Hc. rewrite Hc. cbn. apply app_nil_r.
Qed.

(** X8 (an unregistered callback is never invoked again).  An
    unregistration, [eventSetExecutorCallback] with a null callback, invokes
    nothing, whatever was registered or buffered before; and as long as no
    callback is registered afterwards, no call invokes anything, however
    many handler calls follow. *)
Theorem unregistered_callback_never_invoked
    (user_data : pointer) (cs : list call) (w w1 w2 : World) :
  eventSetExecutorCallback user_data nullptr w = Returned tt w1 ->
  forallb (fun c => negb (registers c)) cs = true ->
  run cs w1 = Returned tt w2 ->
  callbacks (trace w2) = callbacks (trace w)
  /\ is_null (listener_callback_ (self w2)) = true
  /\ user_data_ (self w1) = nullptr.
Proof.
  intros E Hcs Hrun.
  apply (exec_dispatcher (call_eventSetExecutorCallback user_data nullptr))
    in E as (Ecb & Eud & _ & Etr).
  cbn in Ecb, Eud, Etr. rewrite app_nil_r in Etr.
  destruct (run_silent cs w1 w2) as [Hn Ht]; auto.
  { rewrite Ecb. reflexivity. }
  rewrite Ht, Etr. auto.
Qed.

(** ** Accumulation of the deadline deltas in general *)

(** X9 (wrap-around of the deadline delta).  With no range condition: after
    any history without a [takeNextEvent] of the deadline kind, from a
    window start, [takeNextEvent] returns in [total_count_change] the sum
    of the recorded changes reduced modulo 2^32 into the [int32_t] range.
    The accumulator is a [uint32_t] and the result field an [int32_t]. *)
Theorem deadline_delta_accumulates_modulo
    (w0 w1 : World) (cs : list call) (event_info : event_info_t) :
  asserted RMW_EVENT_REQUESTED_DEADLINE_MISSED = true ->
  window_start RMW_EVENT_REQUESTED_DEADLINE_MISSED w0 ->
  forallb (fun c => negb (takes RMW_EVENT_REQUESTED_DEADLINE_MISSED c)) cs = true ->
  run cs w0 = Returned tt w1 ->
  exists d w2,
    takeNextEvent RMW_EVENT_REQUESTED_DEADLINE_MISSED event_info w1
    = Returned (true, deadline_info d) w2
    /\ rmw.total_count_change d
       = wrap_int32 (Zsum (map fastdds.total_count_change (deadline_statuses cs))).
Proof.
  intros Ha Hstart Hcs Hrun.
  pose proof (window_start_zero RMW_EVENT_REQUESTED_DEADLINE_MISSED w0 eq_refl Hstart)
    as Hzero.
  cbn in Hzero. inversion Hzero as [|? ? Hz _]; subst.
  pose proof (run_deadline_change cs w0 w1 Hrun Hcs) as E.
  rewrite <- Hz in E. cbn in E.
  unfold takeNextEvent, assert. unfold asserted in Ha. rewrite Ha.
  unfold lock_guard, bind, ret, this, modify, emit; cbn.
  eexists _, _. split; [reflexivity|]. cbn.
  rewrite <- wrap_int32_uint32, E, wrap_int32_uint32. reflexivity.
Qed.

(** ** Only the handlers nest the dispatcher lock *)

(** X10 (registration and polling keep the locks apart).  A call that is not
    a status handler never holds [listener_callback_mutex_] together with
    [internalMutex_] or the wait-coordination mutex; in particular the
    callback invoked by a registration to flush the buffered count runs
    with [listener_callback_mutex_] as the only lock held. *)
Theorem only_handlers_nest_dispatcher_lock (c : call) (w w' : World) :
  is_record c = false ->
  exec c w = Returned tt w' ->
  exists seg,
    trace w' = trace w ++ seg
    /\ dispatcher_outside_data_locks [] seg = true
    /\ Forall (eq [listener_callback_mutex_]) (held_at_callback [] seg).
Proof.
  intros Hc H. destruct c as [? | ? | [| |?] | ? ? | [| |?] ?];
    try discriminate Hc;
    unfold_members; cbn in *; split_tests; returned; cbn in *;
    repeat rewrite <- app_assoc; cbn;
    first [ eexists; split; [reflexivity|]
          | exists []; split; [symmetry; apply app_nil_r|] ];
    cbn; auto.
Qed.

End Members.

(** ** Where the handlers and the take depart from the specification *)


(** C7, counterexample.  With assertions compiled in and a supported-kind
    predicate that accepts the two subscription kinds only, [takeNextEvent]
    on another kind does not return false: it does not return. *)
Lemma unsupported_kind_does_not_return_false :
  handled (RMW_EVENT_other 0) = false
  /\ ~ exists w',
         takeNextEvent false subscription_event_supported
           (RMW_EVENT_other 0) empty_deadline_info fresh_world
         = Returned (false, empty_deadline_info) w'.
Proof.
  split; [reflexivity|]. intros [w' H]. discriminate H.
Qed.

(** C1, counterexample.  One deadline status with a change of 3000000000, a
    [uint32_t] value, on a freshly constructed object: [takeNextEvent] does
    not return that sum in the delta field (it returns -1294967296). *)
Lemma deadline_delta_above_int32_is_not_the_sum :
  recorded_deltas RMW_EVENT_REQUESTED_DEADLINE_MISSED
    [call_on_requested_deadline_missed three_billion_missed_deadlines]
  = [3000000000]
  /\ ~ exists info' w2,
         takeNextEvent false subscription_event_supported
           RMW_EVENT_REQUESTED_DEADLINE_MISSED empty_deadline_info
           (returned_world
              (run false subscription_event_supported
                 [call_on_requested_deadline_missed three_billion_missed_deadlines]
                 fresh_world)
              fresh_world)
         = Returned (true, info') w2
         /\ delta_fields info' = [3000000000].
Proof.
  split; [reflexivity|]. intros (info' & w2 & E & H).
  vm_compute in E. inversion E; subst. vm_compute in H. discriminate H.
Qed.

(** C5, counterexample.  After one deadline status with a total of
    3000000000, a [uint32_t] value, [takeNextEvent] does not return that
    total in the absolute field (it returns -1294967296). *)
Lemma deadline_total_above_int32_is_not_returned :
  recorded_absolute RMW_EVENT_REQUESTED_DEADLINE_MISSED
    [call_on_requested_deadline_missed three_billion_missed_deadlines]
  = Some [3000000000]
  /\ ~ exists info' w2,
         takeNextEvent false subscription_event_supported
           RMW_EVENT_REQUESTED_DEADLINE_MISSED empty_deadline_info
           (returned_world
              (run false subscription_event_supported
                 [call_on_requested_deadline_missed three_billion_missed_deadlines]
                 fresh_world)
              fresh_world)
         = Returned (true, info') w2
         /\ absolute_fields info' = [3000000000].
Proof.
  split; [reflexivity|]. intros (info' & w2 & E & H).
  vm_compute in E. inversion E; subst. vm_compute in H. discriminate H.
Qed.

(** ** The scenarios of the specification, run on the model *)

Ltac by_running := vm_compute; reflexivity.

(** Scenario A: one missed-deadline status on a fresh endpoint. *)
Example scenario_A :
  let w1 := returned_world (on_requested_deadline_missed five_missed_deadlines fresh_world)
              fresh_world in
  hasEvent false subscription_event_supported RMW_EVENT_REQUESTED_DEADLINE_MISSED w1
  = Returned true w1
  /\ exists w2,
       takeNextEvent false subscription_event_supported
         RMW_EVENT_REQUESTED_DEADLINE_MISSED empty_deadline_info w1
       = Returned
           (true, deadline_info {| rmw.total_count := 5; rmw.total_count_change := 5 |})
           w2
       /\ hasEvent false subscription_event_supported
            RMW_EVENT_REQUESTED_DEADLINE_MISSED w2
          = Returned false w2.
Proof.
  split; [by_running|]. eexists. split; by_running.
Qed.

(** Scenario B: two liveliness changes with deltas +1 and +2. *)
Example scenario_B :
  exists w2,
    takeNextEvent false subscription_event_supported
      RMW_EVENT_LIVELINESS_CHANGED empty_liveliness_info
      (returned_world
         (run false subscription_event_supported liveliness_history fresh_world)
         fresh_world)
    = Returned
        (true,
         liveliness_info
           {| rmw.alive_count := 5; rmw.not_alive_count := 0;
              rmw.alive_count_change := 3; rmw.not_alive_count_change := -1 |})
        w2.
Proof. eexists. by_running. Qed.

(** Scenario C: three handler calls with no callback, then a registration,
    then one more handler call. *)
Example scenario_C :
  callbacks
    (trace (returned_world
              (run false subscription_event_supported
                 (unregistered_history
                  ++ [call_eventSetExecutorCallback 7%N 9%N;
                      call_on_requested_deadline_missed one_missed_deadline])
                 fresh_world)
              fresh_world))
  = [(9%N, 7%N, 3); (9%N, 7%N, 1)].
Proof. by_running. Qed.

(** ** The theorems at concrete inputs

    Assertions are compiled in ([NDEBUG] is false) and the supported-kind
    predicate accepts the two subscription kinds. *)

Lemma take_returns_accumulated_deltas_witness :
  exists info' w2,
    takeNextEvent false subscription_event_supported
      RMW_EVENT_LIVELINESS_CHANGED empty_liveliness_info
      (returned_world
         (run false subscription_event_supported
            (liveliness_history
             ++ [call_on_requested_deadline_missed three_billion_missed_deadlines])
            fresh_world)
         fresh_world)
    = Returned (true, info') w2
    /\ delta_fields info' = [3; -1].
Proof.
  destruct (take_returns_accumulated_deltas false subscription_event_supported
              RMW_EVENT_LIVELINESS_CHANGED fresh_world
              (returned_world
                 (run false subscription_event_supported
                    (liveliness_history
                     ++ [call_on_requested_deadline_missed
                           three_billion_missed_deadlines])
                    fresh_world)
                 fresh_world)
              (liveliness_history
               ++ [call_on_requested_deadline_missed three_billion_missed_deadlines])
              empty_liveliness_info)
    as (info' & w2 & E & Hd & _).
  - by_running.
  - by_running.
  - apply window_constructed.
  - by_running.
  - by_running.
  - split; repeat constructor; vm_compute; discriminate.
  - exists info', w2. split; [exact E | exact Hd].
Defined.

Lemma take_returns_last_absolute_witness :
  exists info' w2,
    takeNextEvent false subscription_event_supported
      RMW_EVENT_REQUESTED_DEADLINE_MISSED empty_deadline_info
      (returned_world
         (run false subscription_event_supported
            (call_on_requested_deadline_missed three_billion_missed_deadlines
             :: mixed_history)
            fresh_world)
         fresh_world)
    = Returned (true, info') w2
    /\ absolute_fields info' = [7].
Proof.
  destruct (take_returns_last_absolute false subscription_event_supported
              RMW_EVENT_REQUESTED_DEADLINE_MISSED fresh_world
              (returned_world
                 (run false subscription_event_supported
                    (call_on_requested_deadline_missed three_billion_missed_deadlines
                     :: mixed_history)
                    fresh_world)
                 fresh_world)
              (call_on_requested_deadline_missed three_billion_missed_deadlines
               :: mixed_history)
              [7] empty_deadline_info)
    as (info' & w2 & E & _ & Hexact).
  - by_running.
  - by_running.
  - by_running.
  - by_running.
  - exists info', w2. split; [exact E|]. apply Hexact.
    repeat constructor; vm_compute; discriminate.
Defined.

Lemma hasEvent_after_record_and_take_witness :
  hasEvent false subscription_event_supported RMW_EVENT_REQUESTED_DEADLINE_MISSED
    (returned_world
       (run false subscription_event_supported
          (call_on_requested_deadline_missed five_missed_deadlines
           :: liveliness_history) fresh_world)
       fresh_world)
  = Returned
      (records RMW_EVENT_REQUESTED_DEADLINE_MISSED
         (call_on_requested_deadline_missed five_missed_deadlines))
      (returned_world
         (run false subscription_event_supported
            (call_on_requested_deadline_missed five_missed_deadlines
             :: liveliness_history) fresh_world)
         fresh_world).
Proof.
  apply (hasEvent_after_record_and_take false subscription_event_supported
           RMW_EVENT_REQUESTED_DEADLINE_MISSED
           (call_on_requested_deadline_missed five_missed_deadlines)
           liveliness_history fresh_world); by_running.
Defined.

Lemma second_take_returns_zero_deltas_witness :
  exists info2 w3,
    takeNextEvent false subscription_event_supported
      RMW_EVENT_REQUESTED_DEADLINE_MISSED empty_deadline_info
      (returned_world
         (run false subscription_event_supported
            (mixed_history
             ++ [call_on_liveliness_changed three_alive;
                 call_takeNextEvent RMW_EVENT_REQUESTED_DEADLINE_MISSED
                   empty_deadline_info]
             ++ liveliness_history)
            fresh_world)
         fresh_world)
    = Returned (true, info2) w3
    /\ Forall (eq 0) (delta_fields info2)
    /\ absolute_fields info2 = [7].
Proof.
  destruct (second_take_returns_zero_deltas false subscription_event_supported
              RMW_EVENT_REQUESTED_DEADLINE_MISSED
              [call_on_liveliness_changed three_alive] liveliness_history
              (returned_world
                 (run false subscription_event_supported mixed_history fresh_world)
                 fresh_world)
              (returned_world
                 (run false subscription_event_supported
                    (mixed_history ++ [call_on_liveliness_changed three_alive])
                    fresh_world)
                 fresh_world)
              (returned_world
                 (run false subscription_event_supported
                    (mixed_history
                     ++ [call_on_liveliness_changed three_alive;
                         call_takeNextEvent RMW_EVENT_REQUESTED_DEADLINE_MISSED
                           empty_deadline_info])
                    fresh_world)
                 fresh_world)
              (returned_world
                 (run false subscription_event_supported
                    (mixed_history
                     ++ [call_on_liveliness_changed three_alive;
                         call_takeNextEvent RMW_EVENT_REQUESTED_DEADLINE_MISSED
                           empty_deadline_info]
                     ++ liveliness_history)
                    fresh_world)
                 fresh_world)
              empty_deadline_info empty_deadline_info
              (true,
               deadline_info {| rmw.total_count := 7; rmw.total_count_change := 7 |}))
    as (_ & _ & _ & info2 & w3 & E & Hd & Ha).
  - by_running.
  - by_running.
  - by_running.
  - by_running.
  - by_running.
  - by_running.
  - by_running.
  - exists info2, w3. split; [exact E|]. split; [exact Hd | exact Ha].
Defined.

Lemma other_kind_untouched_witness :
  stored_absolute RMW_EVENT_LIVELINESS_CHANGED
    (self (returned_world
             (on_requested_deadline_missed five_missed_deadlines
                (returned_world
                   (run false subscription_event_supported liveliness_history
                      fresh_world)
                   fresh_world))
             fresh_world))
  = [5; 0]
  /\ stored_delta RMW_EVENT_LIVELINESS_CHANGED
       (self (returned_world
                (on_requested_deadline_missed five_missed_deadlines
                   (returned_world
                      (run false subscription_event_supported liveliness_history
                         fresh_world)
                      fresh_world))
                fresh_world))
     = [3; -1]
  /\ unread_flag RMW_EVENT_LIVELINESS_CHANGED
       (self (returned_world
                (on_requested_deadline_missed five_missed_deadlines
                   (returned_world
                      (run false subscription_event_supported liveliness_history
                         fresh_world)
                      fresh_world))
                fresh_world))
     = true.
Proof.
  destruct (other_kind_untouched false subscription_event_supported
              RMW_EVENT_LIVELINESS_CHANGED
              (call_on_requested_deadline_missed five_missed_deadlines)
              (returned_world
                 (run false subscription_event_supported liveliness_history
                    fresh_world)
                 fresh_world)
              (returned_world
                 (on_requested_deadline_missed five_missed_deadlines
                    (returned_world
                       (run false subscription_event_supported liveliness_history
                          fresh_world)
                       fresh_world))
                 fresh_world))
    as (Ha & Hd & Hf).
  - by_running.
  - by_running.
  - by_running.
  - rewrite Ha, Hd, Hf. repeat split; by_running.
Defined.


Lemma record_invokes_registered_callback_witness :
  exists w',
    exec false subscription_event_supported
      (call_on_liveliness_changed three_alive)
      (returned_world (eventSetExecutorCallback 7%N 9%N fresh_world) fresh_world)
    = Returned tt w'
    /\ callbacks (trace w') = [(9%N, 7%N, 1)]
    /\ unread_events_count_ (self w') = 0.
Proof.
  apply (record_invokes_registered_callback false subscription_event_supported
           (call_on_liveliness_changed three_alive)
           (returned_world (eventSetExecutorCallback 7%N 9%N fresh_world) fresh_world));
    by_running.
Defined.

Lemma dispatcher_invariant_preserved_witness :
  dispatcher_invariant
    (self (returned_world
             (eventSetExecutorCallback 7%N 9%N
                (returned_world
                   (run false subscription_event_supported unregistered_history
                      fresh_world)
                   fresh_world))
             fresh_world))
  /\ unread_events_count_
       (self (returned_world
                (eventSetExecutorCallback 7%N 9%N
                   (returned_world
                      (run false subscription_event_supported unregistered_history
                         fresh_world)
                      fresh_world))
                fresh_world))
     = 0.
Proof.
  destruct (dispatcher_invariant_preserved false subscription_event_supported
              (call_eventSetExecutorCallback 7%N 9%N)
              (returned_world
                 (run false subscription_event_supported unregistered_history
                    fresh_world)
                 fresh_world)
              (returned_world
                 (eventSetExecutorCallback 7%N 9%N
                    (returned_world
                       (run false subscription_event_supported unregistered_history
                          fresh_world)
                       fresh_world))
                 fresh_world))
    as (Hinv & _ & Hflush).
  - intros Hreg. vm_compute in Hreg. discriminate Hreg.
  - by_running.
  - split; [exact Hinv | apply Hflush; by_running].
Defined.


Lemma takeNextEvent_by_kind_witness :
  takeNextEvent false subscription_event_supported
    (RMW_EVENT_other 0) empty_deadline_info fresh_world = Aborted
  /\ exists info' w',
       takeNextEvent true subscription_event_supported
         (RMW_EVENT_other 0) empty_deadline_info fresh_world
       = Returned (false, info') w'
       /\ info' = empty_deadline_info
       /\ self w' = self fresh_world.
Proof.
  split.
  - apply (takeNextEvent_by_kind false subscription_event_supported
             (RMW_EVENT_other 0) empty_deadline_info fresh_world).
    by_running.
  - destruct (takeNextEvent_by_kind true subscription_event_supported
                (RMW_EVENT_other 0) empty_deadline_info fresh_world)
      as (_ & info' & w' & E & Hinfo & Hself & _);
      [by_running | by_running |].
    exists info', w'. auto.
Defined.

(** ** The further theorems at concrete inputs *)

Lemma history_keeps_lock_order_witness :
  ordered_locking []
    (trace (returned_world
              (run false subscription_event_supported
                 (mixed_history
                  ++ [call_eventSetExecutorCallback 7%N 9%N;
                      call_on_liveliness_changed five_alive])
                 attached_world)
              attached_world)) = true
  /\ held_after []
       (trace (returned_world
                 (run false subscription_event_supported
                    (mixed_history
                     ++ [call_eventSetExecutorCallback 7%N 9%N;
                         call_on_liveliness_changed five_alive])
                    attached_world)
                 attached_world)) = [].
Proof.
  apply (history_keeps_lock_order false subscription_event_supported
           (mixed_history
            ++ [call_eventSetExecutorCallback 7%N 9%N;
                call_on_liveliness_changed five_alive])
           attached_world); by_running.
Defined.

Lemma callback_only_under_dispatcher_lock_witness :
  forallb holds_dispatcher_lock
    (held_at_callback []
       (trace (returned_world
                 (run false subscription_event_supported
                    (mixed_history
                     ++ [call_eventSetExecutorCallback 7%N 9%N;
                         call_on_liveliness_changed five_alive])
                    attached_world)
                 attached_world))) = true.
Proof.
  apply (callback_only_under_dispatcher_lock false subscription_event_supported
           (mixed_history
            ++ [call_eventSetExecutorCallback 7%N 9%N;
                call_on_liveliness_changed five_alive])
           attached_world); by_running.
Defined.

Lemma notifications_conserved_witness :
  notified
    (trace (returned_world
              (run false subscription_event_supported
                 (unregistered_history
                  ++ [call_eventSetExecutorCallback 7%N 9%N;
                      call_on_liveliness_changed five_alive;
                      call_eventSetExecutorCallback 7%N nullptr;
                      call_on_requested_deadline_missed one_missed_deadline])
                 fresh_world)
              fresh_world))
  + unread_events_count_
      (self (returned_world
               (run false subscription_event_supported
                  (unregistered_history
                   ++ [call_eventSetExecutorCallback 7%N 9%N;
                       call_on_liveliness_changed five_alive;
                       call_eventSetExecutorCallback 7%N nullptr;
                       call_on_requested_deadline_missed one_missed_deadline])
                  fresh_world)
               fresh_world))
  = 5.
Proof.
  destruct (notifications_conserved false subscription_event_supported
              (unregistered_history
               ++ [call_eventSetExecutorCallback 7%N 9%N;
                   call_on_liveliness_changed five_alive;
                   call_eventSetExecutorCallback 7%N nullptr;
                   call_on_requested_deadline_missed one_missed_deadline])
              fresh_world
              (returned_world
                 (run false subscription_event_supported
                    (unregistered_history
                     ++ [call_eventSetExecutorCallback 7%N 9%N;
                         call_on_liveliness_changed five_alive;
                         call_eventSetExecutorCallback 7%N nullptr;
                         call_on_requested_deadline_missed one_missed_deadline])
                    fresh_world)
                 fresh_world))
    as [H _].
  - vm_compute. discriminate.
  - vm_compute. discriminate.
  - by_running.
  - rewrite H. by_running.
Defined.

Lemma no_event_means_zero_deltas_witness :
  exists info' w2,
    takeNextEvent false subscription_event_supported
      RMW_EVENT_LIVELINESS_CHANGED empty_liveliness_info
      (returned_world
         (run false subscription_event_supported mixed_history fresh_world)
         fresh_world)
    = Returned (true, info') w2
    /\ Forall (eq 0) (delta_fields info').
Proof.
  apply (no_event_means_zero_deltas false subscription_event_supported
           RMW_EVENT_LIVELINESS_CHANGED nullptr nullptr mixed_history
           (returned_world
              (run false subscription_event_supported mixed_history fresh_world)
              fresh_world)
           (returned_world
              (run false subscription_event_supported mixed_history fresh_world)
              fresh_world)
           empty_liveliness_info); by_running.
Defined.

Lemma calls_of_different_kinds_commute_witness :
  exists w12 w21,
    run false subscription_event_supported
      [call_on_liveliness_changed three_alive;
       call_takeNextEvent RMW_EVENT_REQUESTED_DEADLINE_MISSED empty_deadline_info]
      (returned_world
         (run false subscription_event_supported
            (call_eventSetExecutorCallback 7%N 9%N :: mixed_history) fresh_world)
         fresh_world)
    = Returned tt w12
    /\ run false subscription_event_supported
         [call_takeNextEvent RMW_EVENT_REQUESTED_DEADLINE_MISSED empty_deadline_info;
          call_on_liveliness_changed three_alive]
         (returned_world
            (run false subscription_event_supported
               (call_eventSetExecutorCallback 7%N 9%N :: mixed_history) fresh_world)
            fresh_world)
       = Returned tt w21
    /\ self w12 = self w21
    /\ callbacks (trace w12) = callbacks (trace w21).
Proof.
  apply (calls_of_different_kinds_commute false subscription_event_supported
           RMW_EVENT_LIVELINESS_CHANGED RMW_EVENT_REQUESTED_DEADLINE_MISSED
           (call_on_liveliness_changed three_alive)
           (call_takeNextEvent RMW_EVENT_REQUESTED_DEADLINE_MISSED empty_deadline_info)).
  - by_running.
  - by_running.
  - discriminate.
  - by_running.
  - by_running.
  - by_running.
  - by_running.
Defined.

Lemma registered_callback_gets_every_event_witness :
  callbacks
    (trace (returned_world
              (run false subscription_event_supported mixed_history
                 (returned_world (eventSetExecutorCallback 7%N 9%N fresh_world)
                    fresh_world))
              fresh_world))
  = [(9%N, 7%N, 1); (9%N, 7%N, 1); (9%N, 7%N, 1)].
Proof.
  destruct (registered_callback_gets_every_event false subscription_event_supported
              mixed_history
              (returned_world (eventSetExecutorCallback 7%N 9%N fresh_world)
                 fresh_world)
              (returned_world
                 (run false subscription_event_supported mixed_history
                    (returned_world (eventSetExecutorCallback 7%N 9%N fresh_world)
                       fresh_world))
                 fresh_world))
    as [H _].
  - by_running.
  - by_running.
  - by_running.
  - rewrite H. by_running.
Defined.

Lemma polls_can_be_dropped_witness :
  run false subscription_event_supported
    (filter (fun c => negb (is_poll c)) mixed_history) fresh_world
  = Returned tt
      (returned_world
         (run false subscription_event_supported mixed_history fresh_world)
         fresh_world).
Proof.
  apply (polls_can_be_dropped false subscription_event_supported
           mixed_history fresh_world).
  by_running.
Defined.

Lemma unregistered_callback_never_invoked_witness :
  callbacks
    (trace (returned_world
              (run false subscription_event_supported
                 (call_eventSetExecutorCallback 5%N nullptr :: mixed_history)
                 (returned_world (eventSetExecutorCallback 7%N 9%N fresh_world)
                    fresh_world))
              fresh_world))
  = [].
Proof.
  destruct (unregistered_callback_never_invoked false subscription_event_supported
              5%N mixed_history
              (returned_world (eventSetExecutorCallback 7%N 9%N fresh_world)
                 fresh_world)
              (returned_world
                 (eventSetExecutorCallback 5%N nullptr
                    (returned_world (eventSetExecutorCallback 7%N 9%N fresh_world)
                       fresh_world))
                 fresh_world)
              (returned_world
                 (run false subscription_event_supported
                    (call_eventSetExecutorCallback 5%N nullptr :: mixed_history)
                    (returned_world (eventSetExecutorCallback 7%N 9%N fresh_world)
                       fresh_world))
                 fresh_world))
    as [H _].
  - by_running.
  - by_running.
  - by_running.
  - rewrite H. by_running.
Defined.

Lemma deadline_delta_accumulates_modulo_witness :
  exists d w2,
    takeNextEvent false subscription_event_supported
      RMW_EVENT_REQUESTED_DEADLINE_MISSED empty_deadline_info
      (returned_world
         (run false subscription_event_supported
            [call_on_requested_deadline_missed
               {| fastdds.total_count := 4294967295;
                  fastdds.total_count_change := 4294967295 |};
             call_on_requested_deadline_missed seven_missed_deadlines]
            fresh_world)
         fresh_world)
    = Returned (true, deadline_info d) w2
    /\ rmw.total_count_change d = 1.
Proof.
  apply (deadline_delta_accumulates_modulo false subscription_event_supported
           fresh_world
           (returned_world
              (run false subscription_event_supported
                 [call_on_requested_deadline_missed
                    {| fastdds.total_count := 4294967295;
                       fastdds.total_count_change := 4294967295 |};
                  call_on_requested_deadline_missed seven_missed_deadlines]
                 fresh_world)
              fresh_world)
           [call_on_requested_deadline_missed
              {| fastdds.total_count := 4294967295;
                 fastdds.total_count_change := 4294967295 |};
            call_on_requested_deadline_missed seven_missed_deadlines]
           empty_deadline_info).
  - by_running.
  - apply window_constructed.
  - by_running.
  - by_running.
Defined.

Lemma only_handlers_nest_dispatcher_lock_witness :
  exists seg,
    trace (returned_world
             (eventSetExecutorCallback 7%N 9%N
                (returned_world
                   (run false subscription_event_supported unregistered_history
                      attached_world)
                   attached_world))
             attached_world)
    = trace (returned_world
               (run false subscription_event_supported unregistered_history
                  attached_world)
               attached_world)
      ++ seg
    /\ dispatcher_outside_data_locks [] seg = true
    /\ Forall (eq [listener_callback_mutex_]) (held_at_callback [] seg).
Proof.
  apply (only_handlers_nest_dispatcher_lock false subscription_event_supported
           (call_eventSetExecutorCallback 7%N 9%N)
           (returned_world
              (run false subscription_event_supported unregistered_history
                 attached_world)
              attached_world)); by_running.
Defined.
